(** * ShopEZ customer bot: the dialogue manager, verified against its specification

    Shallow embedding of [bot/services/dialogue_manager.py] (class
    [DialogueManager]), of the transaction-id generator of
    [bot/services/transaction_service.py] and of the message loop of
    [bot/app/main.py].

    Conventions of the embedding.
    - Python strings are [string]s of bytes; [lower], [upper] and the regular
      expressions act on ASCII, bytes above 127 are left alone.
    - Python floats are exact rationals ([Q]); [float('inf')] is [Inf].
    - The session context (a Python dict) is a [gmap string value].
    - The external collaborators (language model, vector search, order
      lookup, uuid source, escalation hand-off) are the fields of one record
      of functions, [collaborators]; a failed call is [None].
    - A handler mutates [self.context]: here it takes the context (and,
      where it commits, the transaction store) and returns it with its
      result, also when it raises. Parameters a handler never reads
      (session ids) are left out.
    - Quick-reply buttons and display hints of a response are not modelled;
      the structured fields of a response are. The conversation log written
      to the database and [self.current_state], which is always the empty
      dict, are left out as well. *)

From Stdlib Require Import Ascii String ZArith QArith Qround Qabs.
From stdpp Require Import gmap strings list fin_maps pretty.

Local Open Scope string_scope.

(** ** Python string primitives *)
Module PyStr.

Definition is_upper (c : ascii) : bool :=
  let n := nat_of_ascii c in (65 <=? n)%nat && (n <=? 90)%nat.

Definition is_lower (c : ascii) : bool :=
  let n := nat_of_ascii c in (97 <=? n)%nat && (n <=? 122)%nat.

Definition is_digit (c : ascii) : bool :=
  let n := nat_of_ascii c in (48 <=? n)%nat && (n <=? 57)%nat.

(* [\s] of the [re] module on ASCII: tab .. carriage return, the four
   separators 28 .. 31, and the space. *)
Definition is_space (c : ascii) : bool :=
  let n := nat_of_ascii c in
  ((9 <=? n)%nat && (n <=? 13)%nat) || ((28 <=? n)%nat && (n <=? 32)%nat).

Definition lower_char (c : ascii) : ascii :=
  if is_upper c then ascii_of_nat (nat_of_ascii c + 32) else c.

Definition upper_char (c : ascii) : ascii :=
  if is_lower c then ascii_of_nat (nat_of_ascii c - 32) else c.

Fixpoint smap (f : ascii -> ascii) (s : string) : string :=
  match s with
  | EmptyString => EmptyString
  | String c t => String (f c) (smap f t)
  end.

(* [s.lower()] and [s.upper()] *)
Definition lower (s : string) : string := smap lower_char s.
Definition upper (s : string) : string := smap upper_char s.

Definition is_empty (s : string) : bool :=
  match s with EmptyString => true | _ => false end.

(* [s.startswith(p)] *)
Fixpoint startswith (p s : string) : bool :=
  match p, s with
  | EmptyString, _ => true
  | String a p', String b s' => Ascii.eqb a b && startswith p' s'
  | String _ _, EmptyString => false
  end.

(* [needle in hay] *)
Fixpoint contains (needle hay : string) : bool :=
  startswith needle hay ||
  match hay with
  | EmptyString => false
  | String _ t => contains needle t
  end.

(* [any(word in text for word in words)] *)
Definition any_in (words : list string) (text : string) : bool :=
  existsb (fun w => contains w text) words.

(* [s in words] for a list of strings *)
Definition mem (s : string) (words : list string) : bool :=
  existsb (String.eqb s) words.

Fixpoint drop (n : nat) (s : string) : string :=
  match n, s with
  | O, _ => s
  | S n', String _ t => drop n' t
  | S _, EmptyString => EmptyString
  end.

Fixpoint take (n : nat) (s : string) : string :=
  match n, s with
  | S n', String c t => String c (take n' t)
  | _, _ => EmptyString
  end.

(* [s.replace(old, new)] for a non-empty [old]; [fuel] bounds the scan and
   [length s] is always enough. *)
Fixpoint replace_fuel (fuel : nat) (old new s : string) : string :=
  match fuel with
  | O => s
  | S fuel' =>
      match s with
      | EmptyString => EmptyString
      | String c t =>
          if startswith old s
          then new ++ replace_fuel fuel' old new (drop (String.length old) s)
          else String c (replace_fuel fuel' old new t)
      end
  end.

Definition replace (old new s : string) : string :=
  replace_fuel (String.length s) old new s.

(* the longest prefix of characters satisfying [p], and the rest *)
Fixpoint span (p : ascii -> bool) (s : string) : string * string :=
  match s with
  | EmptyString => (EmptyString, EmptyString)
  | String c t =>
      if p c then let '(a, b) := span p t in (String c a, b)
      else (EmptyString, s)
  end.

Fixpoint rev_acc (s acc : string) : string :=
  match s with
  | EmptyString => acc
  | String c t => rev_acc t (String c acc)
  end.

Definition lstrip (s : string) : string := snd (span is_space s).
Definition rstrip (s : string) : string :=
  rev_acc (lstrip (rev_acc s EmptyString)) EmptyString.
(* [s.strip()] *)
Definition strip (s : string) : string := rstrip (lstrip s).

(* [s.split()] : the maximal runs of non-space characters *)
Fixpoint split_ws_fuel (fuel : nat) (s : string) : list string :=
  match fuel with
  | O => []
  | S fuel' =>
      match lstrip s with
      | EmptyString => []
      | s' => let '(w, rest) := span (fun c => negb (is_space c)) s' in
              w :: split_ws_fuel fuel' rest
      end
  end.

Definition split_ws (s : string) : list string :=
  split_ws_fuel (S (String.length s)) s.

(* [s.capitalize()] *)
Definition capitalize (s : string) : string :=
  match s with
  | EmptyString => EmptyString
  | String c t => String (upper_char c) (lower t)
  end.

(* [s.count('\n')] *)
Fixpoint count_char (c : ascii) (s : string) : nat :=
  match s with
  | EmptyString => O
  | String d t => (if Ascii.eqb c d then 1 else 0) + count_char c t
  end.

Definition newline : ascii := ascii_of_nat 10.

Fixpoint has_digit (s : string) : bool :=
  match s with
  | EmptyString => false
  | String c t => is_digit c || has_digit t
  end.

(* value of a run of decimal digits *)
Fixpoint digits_value (acc : Z) (s : string) : Z :=
  match s with
  | EmptyString => acc
  | String c t => digits_value (10 * acc + Z.of_nat (nat_of_ascii c - 48)) t
  end.

End PyStr.

Import PyStr.

(** ** Rationals standing for Python floats *)

Definition Qlt_bool (a b : Q) : bool := negb (Qle_bool b a).

(* [round(x)] of Python 3: to the nearest integer, ties to the even one *)
Definition py_round (q : Q) : Z :=
  let f := Qfloor q in
  match Qcompare (q - inject_Z f)%Q (1 # 2)%Q with
  | Lt => f
  | Gt => (f + 1)%Z
  | Eq => if Z.even f then f else (f + 1)%Z
  end.

(* [float(text)] for a text made of digits, an optional dot and digits *)
Definition float_of_decimal (s : string) : Q :=
  let '(ip, rest) := span is_digit s in
  match rest with
  | String _ fp =>
      (inject_Z (digits_value 0 ip)
       + inject_Z (digits_value 0 fp)
         / inject_Z (10 ^ Z.of_nat (String.length fp)))%Q
  | EmptyString => inject_Z (digits_value 0 ip)
  end.

(** ** Budget parser: [_parse_budget_constraints] *)
Module Budget.

Inductive bound := Fin (q : Q) | Inf.

Inductive kind := below | above | around.

(* the dict built by [_parse_budget_constraints]; [min_price] and
   [max_price] are the bounds in the search service's currency *)
Record constraints := {
  min_price : option Q;
  max_price : option Q;
  constraint_type : kind;
  max_price_jpy : bound;
  min_price_jpy : Q;
  target_price_jpy : Q
}.

(* [self.yen_to_inr_rate = 0.60] *)
Definition yen_to_inr_rate : Q := (60 # 100)%Q.

Definition default_constraints : constraints :=
  {| min_price := None; max_price := None; constraint_type := around;
     max_price_jpy := Inf; min_price_jpy := 0%Q; target_price_jpy := 0%Q |}.

Definition char_dot : ascii := ascii_of_nat 46.
Definition char_k : ascii := ascii_of_nat 107.

Definition then_k (s : string) : bool :=
  match lstrip s with
  | String c _ => Ascii.eqb c char_k
  | EmptyString => false
  end.

(* the pattern of the k-suffixed amount (digits, an optional dot, digits,
   optional spaces, the letter k) matched at the head of [s]: its group 1,
   the number without the spaces and the k *)
Definition match_k_at (s : string) : option string :=
  let '(d1, r1) := span is_digit s in
  if is_empty d1 then None
  else
    let dotted :=
      match r1 with
      | String c r2 =>
          if Ascii.eqb c char_dot then
            let '(d2, r3) := span is_digit r2 in
            if then_k r3 then Some (d1 ++ String char_dot d2) else None
          else None
      | EmptyString => None
      end in
    match dotted with
    | Some g => Some g
    | None => if then_k r1 then Some d1 else None
    end.

(* first element of [re.findall] for the k-suffixed pattern: the leftmost
   match *)
Fixpoint search_k (s : string) : option string :=
  match match_k_at s with
  | Some g => Some g
  | None =>
      match s with
      | EmptyString => None
      | String _ t => search_k t
      end
  end.

(* [re.findall(r'\d+', text)[0]]: the first run of digits *)
Fixpoint first_digits (s : string) : option string :=
  match s with
  | EmptyString => None
  | String c t =>
      if is_digit c then Some (fst (span is_digit s)) else first_digits t
  end.

Definition below_words : list string :=
  ["under"; "below"; "less than"; "upto"; "max"; "maximum"; "at most"].
Definition above_words : list string :=
  ["over"; "above"; "more than"; "minimum"; "at least"].
Definition around_words : list string :=
  ["around"; "about"; "approximately"; "~"; "avg"; "average"].

Definition extract_amount (budget_text : string) : option Q :=
  match search_k budget_text with
  | Some g => Some (float_of_decimal g * 1000)%Q
  | None =>
      match first_digits budget_text with
      | Some d => Some (float_of_decimal d)
      | None => None
      end
  end.

Definition _parse_budget_constraints (budget_text : string)
  : option constraints :=
  if is_empty budget_text then None
  else
    let budget_text := lower budget_text in
    match extract_amount budget_text with
    | None => Some default_constraints
    | Some amount =>
        let inr_amount := (amount * yen_to_inr_rate)%Q in
        if any_in below_words budget_text then
          Some {| min_price := None; max_price := Some inr_amount;
                  constraint_type := below;
                  max_price_jpy := Fin amount; min_price_jpy := 0%Q;
                  target_price_jpy := 0%Q |}
        else if any_in above_words budget_text then
          Some {| min_price := Some inr_amount; max_price := None;
                  constraint_type := above;
                  max_price_jpy := Inf; min_price_jpy := amount;
                  target_price_jpy := 0%Q |}
        else if any_in around_words budget_text then
          Some {| min_price := Some (inr_amount * (8 # 10))%Q;
                  max_price := Some (inr_amount * (12 # 10))%Q;
                  constraint_type := around;
                  max_price_jpy := Fin (amount * (12 # 10))%Q;
                  min_price_jpy := (amount * (8 # 10))%Q;
                  target_price_jpy := amount |}
        else
          Some {| min_price := None; max_price := Some inr_amount;
                  constraint_type := below;
                  max_price_jpy := Fin amount; min_price_jpy := 0%Q;
                  target_price_jpy := 0%Q |}
    end.

End Budget.

(** ** Product Finder: [_extract_product_data], [_get_product_recommendations],
    [_metadata_based_search] *)
Module Finder.
Import Budget.

(* metadata of a search match, numeric fields already through [_safe_float] *)
Record metadata := {
  md_product_id : option string;
  md_name : option string;
  md_price : Q;            (* [_safe_float(product.get('price'))], in INR *)
  md_rating : Q;           (* [_safe_float(product.get('rating'), 4.0)] *)
  md_brand : option string;
  md_colors : option string; (* first truthy of colors, color, available_colors *)
  md_ram : option string;
  md_processor : option string
}.

Record pmatch := {
  match_id : string;
  match_score : Q;
  match_metadata : metadata
}.

(* a Product Record; [price] is in JPY *)
Record product := {
  id : string;
  name : string;
  price : Z;
  original_price_inr : Q;
  rating : Q;
  brand : string;
  colors : string;
  ram : string;
  processor : string;
  score : Q
}.

Definition quote_chars : list string :=
  [String (ascii_of_nat 34) EmptyString; "'"; "["; "]"].

Definition clean_colors (c : string) : string :=
  strip (fold_left (fun acc q => replace q EmptyString acc) quote_chars c).

Definition _extract_product_data (m : pmatch) : option product :=
  let md := match_metadata m in
  let colors :=
    match md_colors md with
    | Some c => if is_empty c then "Not specified"
                else if String.eqb c "Not specified" then c
                else clean_colors c
    | None => "Not specified"
    end in
  let inr_price := md_price md in
  let jpy_price :=
    if Qeq_bool inr_price 0 then 0%Z else py_round (inr_price / yen_to_inr_rate)%Q in
  if (jpy_price <=? 0)%Z then None
  else Some {|
    id := match md_product_id md with
          | Some i => if is_empty i then "prod-" ++ match_id m else i
          | None => "prod-" ++ match_id m
          end;
    name := default "Unknown Laptop" (md_name md);
    price := jpy_price;
    original_price_inr := inr_price;
    rating := md_rating md;
    brand := default "Unknown" (md_brand md);
    colors := colors;
    ram := default "Not specified" (md_ram md);
    processor := default "Not specified" (md_processor md);
    score := match_score m |}.

Definition bound_scale (b : bound) (f : Q) : bound :=
  match b with Fin q => Fin (q * f)%Q | Inf => Inf end.

(* [price > b] *)
Definition exceeds (jpy_price : Z) (b : bound) : bool :=
  match b with Fin q => Qlt_bool q (inject_Z jpy_price) | Inf => false end.

(* the strict price filter of the candidate loop: [true] when the
   candidate is skipped by one of the three [continue] branches *)
Definition filtered_out (budget_constraints : option constraints)
    (jpy_price : Z) : bool :=
  match budget_constraints with
  | None => false
  | Some bc =>
      let max_jpy := max_price_jpy bc in
      let min_jpy := min_price_jpy bc in
      match constraint_type bc with
      | below => exceeds jpy_price max_jpy
      | above => Qlt_bool (inject_Z jpy_price) min_jpy
      | around =>
          let lower_bound := (min_jpy * (8 # 10))%Q in
          let upper_bound := bound_scale max_jpy (12 # 10)%Q in
          Qlt_bool (inject_Z jpy_price) lower_bound
          || exceeds jpy_price upper_bound
      end
  end.

(* sort keys are pairs of floats compared lexicographically *)
Definition key_le (a b : Q * Q) : bool :=
  Qlt_bool (fst a) (fst b) || (Qeq_bool (fst a) (fst b) && Qle_bool (snd a) (snd b)).

(* [list.sort(key=...)]: a stable sort, here by insertion *)
Fixpoint insert_by (key : product -> Q * Q) (x : product) (l : list product)
  : list product :=
  match l with
  | [] => [x]
  | y :: l' => if key_le (key x) (key y) then x :: l
               else y :: insert_by key x l'
  end.

Definition sort_by (key : product -> Q * Q) (l : list product) : list product :=
  foldr (insert_by key) [] l.

Definition Qabs_diff (a b : Q) : Q := Qabs (a - b).

Definition rank_key (budget_constraints : option constraints) (x : product)
  : Q * Q :=
  match budget_constraints with
  | Some bc =>
      match constraint_type bc with
      | below => (- inject_Z (price x), - rating x)%Q
      | above => (inject_Z (price x), - rating x)%Q
      | around =>
          (Qabs_diff (inject_Z (price x)) (target_price_jpy bc), - rating x)%Q
      end
  | None => (- score x, - rating x)%Q
  end.

(* the unconstrained order of the metadata search differs *)
Definition rank_key_metadata (budget_constraints : option constraints)
    (x : product) : Q * Q :=
  match budget_constraints with
  | Some _ => rank_key budget_constraints x
  | None => (- rating x, inject_Z (price x))%Q
  end.

Record recommendations := {
  products : list product;   (* at most six *)
  count : nat;               (* before truncation *)
  metadata_search : bool
}.

(* the candidate loop shared by both searches; [threshold] is the score a
   match must exceed, [None] for the metadata search which has none *)
Definition collect (threshold : option Q) (budget_constraints : option constraints)
    (matches : list pmatch) : list product :=
  omap (fun m =>
          if match threshold with
             | Some t => Qlt_bool t (match_score m)
             | None => true
             end
          then
            match _extract_product_data m with
            | Some product_data =>
                if (0 <? price product_data)%Z
                   && negb (filtered_out budget_constraints (price product_data))
                then Some product_data else None
            | None => None
            end
          else None) matches.

Definition known_brands : list string :=
  ["dell"; "hp"; "lenovo"; "apple"; "asus"; "acer"; "infinix"; "msi";
   "realme"; "redmi"; "gigabyte"; "samsung"; "avita"; "redmibook"].

Definition detect_brand (brands : list string) (text_lower : string)
  : option string :=
  List.find (fun b => contains b text_lower) brands.

Section WithSearch.
(* [product_manager.search_products(query, top_k=50)]: the matches, or
   [None] when the search returned nothing usable *)
Variable search_products : string -> option (list pmatch).
(* [product_manager.index.query] filtered on the casings of a brand;
   [None] when the call raises *)
Variable query_by_brand : string -> option (list pmatch).

Definition _metadata_based_search (search_query : string)
    (budget_constraints : option constraints) : option recommendations :=
  match detect_brand known_brands (lower search_query) with
  | None => None
  | Some detected_brand =>
      match query_by_brand detected_brand with
      | None => None
      | Some matches =>
          let products := collect None budget_constraints matches in
          match products with
          | [] => None
          | _ =>
              let sorted :=
                sort_by (rank_key_metadata budget_constraints) products in
              Some {| products := firstn 6 sorted;
                      count := length products;
                      metadata_search := true |}
          end
      end
  end.

Definition _get_product_recommendations (search_query : string)
    (budget_constraints : option constraints) : option recommendations :=
  let products :=
    match search_products search_query with
    | Some matches => collect (Some (1 # 10)%Q) budget_constraints matches
    | None => []
    end in
  match products with
  | [] => _metadata_based_search search_query budget_constraints
  | _ =>
      let sorted := sort_by (rank_key budget_constraints) products in
      Some {| products := firstn 6 sorted;
              count := length products;
              metadata_search := false |}
  end.
End WithSearch.

End Finder.

(** ** Transaction ids: [TransactionService._generate_transaction_id] *)
Module Transaction.

Definition hex_char (d : N) : ascii :=
  ascii_of_N (if (d <? 10)%N then 48 + d else 87 + d)%N.

(* the [k] low hexadecimal digits of [n], most significant first *)
Fixpoint hex_digits (k : nat) (n : N) (acc : string) : string :=
  match k with
  | O => acc
  | S k' => hex_digits k' (n / 16)%N (String (hex_char (n mod 16)%N) acc)
  end.

(* [str(u)] for a [uuid.UUID] of 128-bit value [u]: 8-4-4-4-12 lowercase
   hexadecimal digits *)
Definition uuid_str (u : N) : string :=
  let h := hex_digits 32 u EmptyString in
  take 8 h ++ "-" ++ take 4 (drop 8 h) ++ "-" ++ take 4 (drop 12 h)
  ++ "-" ++ take 4 (drop 16 h) ++ "-" ++ drop 20 h.

Definition _generate_transaction_id (prefix : string) (u : N) : string :=
  prefix ++ "-" ++ upper (take 8 (uuid_str u)).

Definition cancellation_reasons : list string :=
  ["Found better price elsewhere"; "Changed my mind"; "Ordered by mistake";
   "Delivery too long"; "Other"].
Definition return_reasons : list string :=
  ["Faulty/Defective"; "Wrong item received"; "Item not as described";
   "No longer needed"; "Other"].
Definition warranty_reasons : list string :=
  ["Battery issues"; "Screen problems"; "Performance issues";
   "Hardware failure"; "Software problems"; "Other"].

Definition get_reasons (transaction_type : option string) : list string :=
  match transaction_type with
  | Some t =>
      if String.eqb t "cancellation" then cancellation_reasons
      else if String.eqb t "return" then return_reasons
      else if String.eqb t "warranty" then warranty_reasons
      else []
  | None => []
  end.

End Transaction.

(** ** The dialogue manager *)
Module Dialogue.
Import Budget Finder Transaction.

(* an order dict; a field is [None] when the key is absent *)
Record order := {
  order_id : option string;
  product_name : option string;
  order_price : option Z;
  status : option string;
  currency_symbol : option string;
  product_id : option string;
  currency : option string;
  order_date : option string;
  delivery_date : option string;
  carrier : option string;
  tracking_number : option string
}.

Definition no_fields : order :=
  {| order_id := None; product_name := None; order_price := None;
     status := None; currency_symbol := None; product_id := None;
     currency := None; order_date := None; delivery_date := None;
     carrier := None; tracking_number := None |}.

(* values stored in the session context *)
Inductive value :=
  | VBool (b : bool)
  | VStr (s : string)
  | VOrder (o : order)
  | VProducts (ps : list product)
  | VUser (u : gmap string string).

(* Python truth value of [context.get(key)] *)
Definition truthy (v : option value) : bool :=
  match v with
  | None => false
  | Some (VBool b) => b
  | Some (VStr s) => negb (is_empty s)
  | Some (VOrder _) => true
  | Some (VProducts ps) => match ps with [] => false | _ => true end
  | Some (VUser u) => negb (bool_decide (u = ∅))
  end.

(* [str(v)] as used inside f-strings; containers are never stored under
   the keys that are formatted, their [repr] is not modelled *)
Definition py_str (v : option value) : string :=
  match v with
  | None => "None"
  | Some (VStr s) => s
  | Some (VBool true) => "True"
  | Some (VBool false) => "False"
  | Some _ => "<object>"
  end.

Definition as_str (v : option value) : option string :=
  match v with Some (VStr s) => Some s | _ => None end.

(* what [.get] sees on a value used as an order dict; [None] when the
   value has no [get] attribute (AttributeError) *)
Definition order_view (v : value) : option order :=
  match v with
  | VOrder o => Some o
  | VUser _ => Some no_fields
  | _ => None
  end.

(* [for key in keys: context.pop(key, None)] *)
Definition pop_all (keys : list string) (context : gmap string value)
  : gmap string value :=
  fold_left (fun c k => delete k c) keys context.

(* [context.update(entities)] *)
Definition update_with (entities : gmap string string)
    (context : gmap string value) : gmap string value :=
  (VStr <$> entities) ∪ context.

(* [entities.get(key)] when truthy *)
Definition entity (entities : gmap string string) (key : string)
  : option string :=
  match entities !! key with
  | Some s => if is_empty s then None else Some s
  | None => None
  end.

Record policies := {
  company : string;
  policy_type : string;
  policy : list string
}.

(* the defaults of [_load_warranty_policies] *)
Definition default_policies : policies :=
  {| company := "ShopEZ";
     policy_type := "Laptop Warranty";
     policy :=
       ["All ShopEZ laptops come with a 1-year warranty from the date of purchase.";
        "The warranty covers manufacturing defects in materials and workmanship.";
        "It does not cover damage due to accidents, misuse, unauthorized repairs, or normal wear and tear.";
        "Customers must provide a valid purchase invoice for warranty claims.";
        "ShopEZ reserves the right to repair, replace, or refund the product at its discretion."] |}.

(* the call sites of the chat-completion service *)
Inductive prompt :=
  | PChat (user_message intent : string)
  | PFallback (user_message : string)
  | PComparison (ps : list product) (user_message : string)
  | PColor (ps : list product) (requested : list string) (user_message : string)
  | PNoColor (ps : list product) (user_message : string)
  | PProducts (ps : list product) (search_query user_message : string)
  | POrder (o : order)
  | PTracking (o : order)
  | PAskOrderId (transaction_type : string)
  | PAskReason (transaction_type : string)
  | PAskConfirmation (transaction_type : string) (o : order) (reason : string).

(* a committed transaction, as appended to the external store *)
Record tx_record := {
  transaction_id : string;
  tx_user : gmap string string;
  tx_order : order;
  tx_reason : value
}.

Record collaborators := {
  (* chat completion; [None] when the call raises *)
  gpt : prompt -> option string;
  (* the language-model branch of [_understand_with_gpt], with its own
     fallback applied: intent and entities *)
  nlu : string -> gmap string value -> string * gmap string string;
  (* [_create_search_query_with_gpt] *)
  create_search_query : string -> string;
  (* [_extract_comparison_products] *)
  extract_comparison_products : string -> list string;
  (* [product_manager.search_products(query, top_k)] *)
  search_products : string -> nat -> option (list pmatch);
  (* [product_manager.index.query] filtered on a brand *)
  query_by_brand : string -> option (list pmatch);
  (* [_get_order_info] *)
  get_order : string -> option order;
  (* [_get_user_orders] *)
  get_user_orders : gmap string string -> list order;
  (* the 128-bit value of the n-th [uuid.uuid4()] *)
  uuid4 : nat -> N;
  (* [escalation_service.escalate_to_agent(...).get('success')]; the class
     in escalation_service.py defines no such method, the contract is the
     one of the specification: user identity and transcript in, success
     out *)
  escalate_to_agent : gmap string string -> list (string * string) -> bool;
  warranty_policies : policies
}.

(* the structured part of a response dict *)
Record reply := {
  response : string;
  intent : option string;
  entities : option (gmap string string);
  reply_products : list product;
  reply_orders : list order;
  escalated : bool;
  escalation_offer : bool;
  reset_context : bool
}.

Definition plain (text : string) (intent : option string)
    (entities : option (gmap string string)) : reply :=
  {| response := text; intent := intent; entities := entities;
     reply_products := []; reply_orders := [];
     escalated := false; escalation_offer := false; reset_context := false |}.

(* what a handler hands back: a response dict, Python's [None], or an
   exception *)
Inductive outcome :=
  | Reply (r : reply)
  | NoReply
  | Raise.

(* the transaction store and the uuid source *)
Record store := {
  committed : list tx_record;
  uuid_calls : nat
}.

(* the [DialogueManager] instance *)
Record manager := {
  context : gmap string value;
  user_data : gmap string string;
  response_count : nat;
  escalation_offered : bool;
  escalation_pending : bool;
  conversation_history : list (string * string);
  transactions : store
}.

Definition nl : string := String newline EmptyString.

(* [f'{n:,}'] *)
Fixpoint group3 (fuel : nat) (n : N) : string :=
  match fuel with
  | O => pretty n
  | S fuel' =>
      if (n <? 1000)%N then pretty n
      else
        let r := (n mod 1000)%N in
        group3 fuel' (n / 1000)%N ++ ","
        ++ (if (r <? 10)%N then "00" else if (r <? 100)%N then "0" else EmptyString)
        ++ pretty r
  end.

Definition fmt_commas (z : Z) : string :=
  let body := group3 (Z.to_nat (Z.log2 (Z.abs z))) (Z.abs_N z) in
  if (z <? 0)%Z then "-" ++ body else body.

Fixpoint join (sep : string) (l : list string) : string :=
  match l with
  | [] => EmptyString
  | [x] => x
  | x :: l' => x ++ sep ++ join sep l'
  end.

(* lines [i. item] for [enumerate(items, i)], each ended by [tail] *)
Fixpoint numbered (i : nat) (tail : string) (items : list string)
  : list string :=
  match items with
  | [] => []
  | x :: items' => (pretty i ++ ". " ++ x ++ tail) :: numbered (S i) tail items'
  end.

(** *** Order-id patterns *)

Definition char_in (cs : list nat) (c : ascii) : bool :=
  existsb (Nat.eqb (nat_of_ascii c)) cs.

(* [re.search] of ORD, an optional separator among [seps], and digits,
   ignoring case: the matched text *)
Definition match_ord_at (seps : list nat) (optional : bool) (s : string)
  : option string :=
  if startswith "ord" (lower (take 3 s)) then
    let rest := drop 3 s in
    let with_sep :=
      match rest with
      | String c r =>
          if char_in seps c then
            let d := fst (span is_digit r) in
            if is_empty d then None else Some (take 3 s ++ String c d)
          else None
      | EmptyString => None
      end in
    match with_sep with
    | Some m => Some m
    | None =>
        if optional then
          let d := fst (span is_digit rest) in
          if is_empty d then None else Some (take 3 s ++ d)
        else None
    end
  else None.

Fixpoint search_ord (seps : list nat) (optional : bool) (s : string)
  : option string :=
  match match_ord_at seps optional s with
  | Some m => Some m
  | None =>
      match s with
      | EmptyString => None
      | String _ t => search_ord seps optional t
      end
  end.

(* the pattern with a mandatory hyphen *)
Definition search_order_id (s : string) : option string :=
  search_ord [45] false s.

(* the pattern with an optional underscore or hyphen, normalised to the
   ORD-digits form *)
Definition search_order_id_loose (s : string) : option string :=
  match search_ord [95; 45] true s with
  | Some m =>
      let order_id := replace "_" "-" (upper m) in
      Some (if startswith "ORD-" order_id then order_id
            else replace "ORD" "ORD-" order_id)
  | None => None
  end.

(** *** Context keys *)

Definition purchase_cache_keys : list string :=
  ["current_products"; "last_search_query"].

Definition purchase_context_keys : list string :=
  ["current_products"; "last_search_query"; "in_purchase_flow"].

Definition transaction_keys : list string :=
  ["awaiting_confirmation"; "transaction_type"; "transaction_reason";
   "current_order"; "current_order_id"; "awaiting_reason"; "awaiting_order_id";
   "awaiting_warranty_confirmation"].

Definition _reset_transaction_context (context : gmap string value)
  : gmap string value :=
  pop_all transaction_keys context.

Definition is_type (v : option value) (t : string) : bool :=
  match v with
  | Some (VStr s) => String.eqb s t
  | _ => false
  end.

(** *** Affirmative-word lists, one per step *)

Definition confirmation_words : list string :=
  ["yes"; "confirm"; "proceed"; "ok"; "okay"; "yeah"; "yep"; "sure"].

Definition positive_responses : list string :=
  ["yes"; "yeah"; "yep"; "sure"; "ok"; "okay"; "proceed"; "confirm";
   "continue"; "ok"; "alright"].

Definition escalation_words : list string :=
  ["yes"; "yeah"; "yep"; "sure"; "ok"; "okay"; "connect"; "agent"; "human"].

Definition confirms_transaction (user_message : string) : bool :=
  any_in confirmation_words (lower user_message).

Definition confirms_warranty (user_message : string) : bool :=
  any_in positive_responses (lower user_message).

Definition accepts_escalation (user_message : string) : bool :=
  any_in escalation_words (lower user_message).

(** *** Reason mapping: [_map_reason_response] *)

Definition reason_mapping : list (string * string) :=
  [("fault", "Faulty/Defective"); ("faulty", "Faulty/Defective");
   ("defective", "Faulty/Defective"); ("broken", "Faulty/Defective");
   ("not working", "Faulty/Defective"); ("damaged", "Faulty/Defective");
   ("wrong", "Wrong item received"); ("incorrect", "Wrong item received");
   ("different", "Wrong item received");
   ("not as described", "Item not as described");
   ("description", "Item not as described");
   ("changed mind", "No longer needed"); ("dont need", "No longer needed");
   ("no need", "No longer needed"); ("other", "Other")].

Definition _map_reason_response (user_reason : string)
    (valid_reasons : list string) : string :=
  let user_reason_lower := strip (lower user_reason) in
  match List.find (fun km => contains (fst km) user_reason_lower
                             && mem (snd km) valid_reasons) reason_mapping with
  | Some km => snd km
  | None =>
      match List.find (fun valid_reason =>
                    any_in (split_ws (lower valid_reason)) user_reason_lower)
                 valid_reasons with
      | Some valid_reason => valid_reason
      | None => "Other"
      end
  end.

Section Handlers.
Variable E : collaborators.

(* the generated text, or the template of the [except] branch *)
Definition render (p : prompt) (template : string) : string :=
  default template (gpt E p).

(* [response_generator.generate_response] called with a message *)
Definition generate_response (intent : string)
    (entities : gmap string string) (message : string) : reply :=
  plain message (Some intent) (Some entities).

Definition _handle_with_gpt_fallback (user_message : string) : reply :=
  plain (render (PFallback user_message)
           "I apologize, I'm having trouble processing your request. How can I help you with ShopEZ Laptops today?")
        None None.

Definition _handle_with_gpt (context : gmap string value)
    (user_message intent : string) (entities : gmap string string)
  : gmap string value * reply :=
  let context :=
    if truthy (context !! "in_purchase_flow") then context
    else pop_all purchase_cache_keys context in
  (context,
   match gpt E (PChat user_message intent) with
   | Some response_text => plain response_text (Some intent) (Some entities)
   | None => _handle_with_gpt_fallback user_message
   end).

Definition policy_text : string :=
  let w := warranty_policies E in
  company w ++ " - " ++ policy_type w ++ ":" ++ nl ++ nl
  ++ join EmptyString (numbered 1 nl (policy w))
  ++ nl ++ "Would you like to proceed with your warranty claim?".

Definition policy_keywords : list string :=
  ["warranty policy"; "warranty information"; "warranty terms";
   "warranty coverage"; "what is covered"; "warranty details";
   "policy"; "policies"; "terms and conditions"; "what is the warranty";
   "how does warranty work"; "warranty period"].

Definition claim_keywords : list string :=
  ["warranty claim"; "file warranty"; "make warranty"; "request warranty";
   "warranty request"; "need warranty"; "want warranty"].

Definition _is_warranty_policy_inquiry (user_message : string) : bool :=
  let user_message_lower := lower user_message in
  any_in policy_keywords user_message_lower
  && negb (any_in claim_keywords user_message_lower).

Definition _handle_warranty_policy_inquiry (context : gmap string value)
  : gmap string value * reply :=
  (<["awaiting_warranty_confirmation" := VBool true]> context,
   plain policy_text (Some "warranty_policy") (Some ∅)).

Definition _generate_order_response (o : order) : string :=
  render (POrder o)
    ("Here are your order details for " ++ default "the order" (order_id o) ++ ":").

Definition _ask_for_reason (transaction_type : string) : reply :=
  let reasons := get_reasons (Some transaction_type) in
  plain (render (PAskReason transaction_type)
           ("Please select the reason for " ++ transaction_type ++ ":"
            ++ nl ++ nl ++ join nl (numbered 1 EmptyString reasons)))
        (Some (transaction_type ++ "_request")) (Some ∅).

Definition _handle_warranty_confirmation (context : gmap string value)
    (user_message : string) (entities : gmap string string)
  : gmap string value * reply :=
  if confirms_warranty user_message then
    (<["awaiting_reason" := VBool true]>
       (<["awaiting_warranty_confirmation" := VBool false]> context),
     _ask_for_reason "warranty")
  else
    _handle_with_gpt
      (<["awaiting_warranty_confirmation" := VBool false]> context)
      "Warranty claim cancelled. Is there anything else I can help you with?"
      "general_question" entities.

Definition _show_order_and_ask_for_reason (context : gmap string value)
    (order_details : order) (transaction_type : string)
    (entities : gmap string string) : gmap string value * reply :=
  let response_text := _generate_order_response order_details in
  (<["awaiting_reason" := VBool true]> context,
   {| response := response_text;
      intent := Some (transaction_type ++ "_request");
      entities := Some entities;
      reply_products := []; reply_orders := [order_details];
      escalated := false; escalation_offer := false;
      reset_context := false |}).

Definition _ask_for_confirmation (transaction_type : option value)
    (order_details : value) (reason : string) : outcome :=
  match order_view order_details with
  | None => Raise
  | Some o =>
      let t := py_str transaction_type in
      let product_name := default "the product" (product_name o) in
      let price := default 0%Z (order_price o) in
      let currency_symbol := default "¥" (currency_symbol o) in
      let refund :=
        "Refund amount: " ++ currency_symbol ++ fmt_commas price ++ nl in
      let message :=
        if String.eqb t "cancellation" then
          "Confirm cancellation for " ++ product_name ++ "?" ++ nl
          ++ "Reason: " ++ reason ++ nl ++ refund ++ nl
          ++ "Please confirm with 'yes' or 'no'."
        else if String.eqb t "return" then
          "Confirm return for " ++ product_name ++ "?" ++ nl
          ++ "Reason: " ++ reason ++ nl ++ refund ++ nl
          ++ "Please confirm with 'yes' or 'no'."
        else
          "Confirm warranty claim for " ++ product_name ++ "?" ++ nl
          ++ "Reason: " ++ reason ++ nl ++ nl
          ++ "Please confirm with 'yes' or 'no'." in
      Reply (plain (render (PAskConfirmation t o reason) message)
               (Some (t ++ "_request")) (Some ∅))
  end.

Definition _handle_reason_response (context : gmap string value)
    (user_message : string) (entities : gmap string string)
  : gmap string value * outcome :=
  let transaction_type := context !! "transaction_type" in
  match context !! "current_order" with
  | Some order_details =>
      if truthy (Some order_details) then
        let user_reason :=
          default (strip user_message) (entity entities "reason") in
        let valid_reasons := get_reasons (as_str transaction_type) in
        let reason := _map_reason_response user_reason valid_reasons in
        (<["awaiting_confirmation" := VBool true]>
           (<["awaiting_reason" := VBool false]>
              (<["transaction_reason" := VStr reason]> context)),
         _ask_for_confirmation transaction_type order_details reason)
      else
        let '(c, r) :=
          _handle_with_gpt context
            "I'm not sure which order you're referring to. Please provide your Order ID again."
            "unknown" entities in (c, Reply r)
  | None =>
      let '(c, r) :=
        _handle_with_gpt context
          "I'm not sure which order you're referring to. Please provide your Order ID again."
          "unknown" entities in (c, Reply r)
  end.

(* [log_cancellation], [log_refund], [log_warranty_claim]: a fresh id, the
   record appended to the store *)
Definition log_transaction (prefix : string) (st : store)
    (user_data : gmap string string) (o : order) (reason : value)
  : string * store :=
  let transaction_id :=
    _generate_transaction_id prefix (uuid4 E (uuid_calls st)) in
  (transaction_id,
   {| committed :=
        committed st ++ [{| transaction_id := transaction_id;
                            tx_user := user_data; tx_order := o;
                            tx_reason := reason |}];
      uuid_calls := S (uuid_calls st) |}).

Definition _handle_transaction_confirmation (context : gmap string value)
    (st : store) (user_data : gmap string string) (user_message : string)
    (entities : gmap string string)
  : gmap string value * store * outcome :=
  let transaction_type := context !! "transaction_type" in
  match context !! "current_order", context !! "transaction_reason" with
  | Some order_details, Some reason =>
      if truthy (Some order_details) && truthy (Some reason) then
        if confirms_transaction user_message then
          match order_view order_details, as_str transaction_type with
          | Some o, Some t =>
              let price := fmt_commas (default 0%Z (order_price o)) in
              let currency_symbol := default "¥" (currency_symbol o) in
              let done (prefix : string) (text : string -> string) :=
                let '(transaction_id, st') :=
                  log_transaction prefix st user_data o reason in
                (_reset_transaction_context context, st',
                 Reply (generate_response (t ++ "_request") entities
                          (text transaction_id))) in
              if String.eqb t "cancellation" then
                done "CXL" (fun transaction_id =>
                  "✅ Cancellation processed! Refund of " ++ currency_symbol
                  ++ price
                  ++ " will be processed within 5-7 business days. Reference: "
                  ++ transaction_id)
              else if String.eqb t "return" then
                done "REF" (fun transaction_id =>
                  "✅ Return approved! Refund of " ++ currency_symbol ++ price
                  ++ " will be processed after we receive the item. Reference: "
                  ++ transaction_id)
              else if String.eqb t "warranty" then
                done "WAR" (fun transaction_id =>
                  "✅ Warranty claim submitted! Our team will contact you within 24 hours. Reference: "
                  ++ transaction_id)
              else (context, st, Raise)
          | _, _ => (context, st, Raise)
          end
        else
          let context := _reset_transaction_context context in
          match as_str transaction_type with
          | Some t =>
              let '(c, r) :=
                _handle_with_gpt context
                  (capitalize t
                   ++ " cancelled. Is there anything else I can help you with?")
                  (t ++ "_request") entities in (c, st, Reply r)
          | None => (context, st, Raise)
          end
      else
        let '(c, r) :=
          _handle_with_gpt (_reset_transaction_context context)
            "I'm having trouble processing your request. Please start over."
            "unknown" entities in (c, st, Reply r)
  | _, _ =>
      let '(c, r) :=
        _handle_with_gpt (_reset_transaction_context context)
          "I'm having trouble processing your request. Please start over."
          "unknown" entities in (c, st, Reply r)
  end.

End Handlers.

Section Workflow.
Variable E : collaborators.

(* [entities.get('order_id') or context.get('current_order_id')] *)
Definition known_order_id (context : gmap string value)
    (entities : gmap string string) : option value :=
  match entity entities "order_id" with
  | Some i => Some (VStr i)
  | None => context !! "current_order_id"
  end.

Definition transaction_type_of (intent : string) : option string :=
  if String.eqb intent "cancellation_request" then Some "cancellation"
  else if String.eqb intent "return_request" then Some "return"
  else if String.eqb intent "warranty_claim" then Some "warranty"
  else None.

Definition _handle_transaction_intent (context : gmap string value)
    (intent : string) (entities : gmap string string)
  : gmap string value * outcome :=
  let order_id := known_order_id context entities in
  let transaction_type := transaction_type_of intent in
  let context :=
    match transaction_type with
    | Some t => <["transaction_type" := VStr t]> context
    | None => context
    end in
  if truthy order_id then
    match order_id with
    | Some (VStr oid) =>
        match get_order E oid with
        | Some order_details =>
            let context :=
              <["current_order_id" := VStr oid]>
                (<["current_order" := VOrder order_details]> context) in
            let status := lower (default EmptyString (status order_details)) in
            match transaction_type with
            | Some t =>
                if String.eqb t "cancellation" then
                  if String.eqb status "delivered" then
                    (context,
                     Reply (generate_response "cancellation_request" entities
                       "This order has already been delivered. Cancellation is not possible for delivered orders. Would you like to initiate a return instead?"))
                  else
                    let '(c, r) :=
                      _show_order_and_ask_for_reason E context order_details
                        "cancellation" entities in (c, Reply r)
                else if String.eqb t "return" then
                  if negb (String.eqb status "delivered") then
                    (context,
                     Reply (generate_response intent entities
                       ("This order has status: " ++ status
                        ++ ". Returns are only possible for delivered items.")))
                  else
                    let '(c, r) :=
                      _show_order_and_ask_for_reason E context order_details
                        "return" entities in (c, Reply r)
                else
                  if negb (String.eqb status "delivered") then
                    (context,
                     Reply (generate_response intent entities
                       ("This order has status: " ++ status
                        ++ ". Warranty claims are only possible for delivered items.")))
                  else
                    let '(c, r) :=
                      _show_order_and_ask_for_reason E context order_details
                        "warranty" entities in (c, Reply r)
            | None => (context, NoReply)
            end
        | None =>
            let '(c, r) :=
              _handle_with_gpt E context
                ("Order " ++ oid
                 ++ " not found. Please check your Order ID and try again.")
                "order_status" entities in (c, Reply r)
        end
    | _ => (context, Raise)
    end
  else
    let t := py_str (VStr <$> transaction_type) in
    (<["awaiting_order_id" := VBool true]> context,
     Reply (generate_response intent entities
              (render E (PAskOrderId t)
                 ("I can help with your " ++ t
                  ++ ". Please provide your Order ID.")))).

Definition _handle_order_id_response (context : gmap string value)
    (user_message intent : string) (entities : gmap string string)
  : gmap string value * reply :=
  let '(order_id, entities) :=
    match entity entities "order_id" with
    | Some i => (Some i, entities)
    | None =>
        match search_order_id user_message with
        | Some m => (Some (upper m), <["order_id" := upper m]> entities)
        | None => (None, entities)
        end
    end in
  match order_id with
  | Some oid =>
      let context :=
        <["awaiting_order_id" := VBool false]>
          (<["current_order_id" := VStr oid]> context) in
      match get_order E oid with
      | Some order_details =>
          let context := <["current_order" := VOrder order_details]> context in
          if is_type (context !! "transaction_type") "warranty" then
            (<["awaiting_warranty_confirmation" := VBool true]> context,
             plain (policy_text E) (Some "warranty_policy") (Some entities))
          else
            (context,
             {| response := _generate_order_response E order_details;
                intent := Some intent; entities := Some entities;
                reply_products := []; reply_orders := [order_details];
                escalated := false; escalation_offer := false;
                reset_context := false |})
      | None =>
          _handle_with_gpt E context
            ("Order " ++ oid
             ++ " not found. Please check your Order ID and try again.")
            "order_status" entities
      end
  | None =>
      _handle_with_gpt E context
        "I couldn't find an Order ID in your message. Please provide your Order ID (e.g., ORD-1234)."
        "order_status" entities
  end.

Definition _handle_tracking_request (context : gmap string value)
    (oid : string) (entities : gmap string string)
  : gmap string value * reply :=
  match get_order E oid with
  | None =>
      _handle_with_gpt E context
        ("Order " ++ oid
         ++ " not found. Please check your Order ID and try again.")
        "order_status" entities
  | Some o =>
      (context,
       plain (render E (PTracking o)
                ("Here are your tracking details for order "
                 ++ default "N/A" (order_id o) ++ ":" ++ nl ++ nl
                 ++ "Status: " ++ default "Unknown" (status o) ++ nl
                 ++ "Carrier: " ++ default "Not specified" (carrier o) ++ nl
                 ++ "Tracking #: " ++ default "Not available" (tracking_number o)
                 ++ nl ++ "Estimated Delivery: "
                 ++ default "Not specified" (delivery_date o)))
             (Some "order_tracking") (Some entities))
  end.

Definition _handle_order_status (context : gmap string value)
    (user_data : gmap string string) (user_message intent : string)
    (entities : gmap string string) : gmap string value * outcome :=
  let user_message_lower := lower user_message in
  let listing :=
    match entity entities "order_id" with
    | Some oid =>
        match get_order E oid with
        | Some order_details =>
            (context,
             Reply {| response := "Here are the details for your order " ++ oid ++ ":";
                      intent := Some intent; entities := Some entities;
                      reply_products := []; reply_orders := [order_details];
                      escalated := false; escalation_offer := false;
                      reset_context := false |})
        | None =>
            let '(c, r) :=
              _handle_with_gpt E context
                ("Order " ++ oid
                 ++ " not found. Please check your Order ID and try again.")
                "order_status" entities in (c, Reply r)
        end
    | None =>
        match get_user_orders E user_data with
        | [] =>
            let '(c, r) :=
              _handle_with_gpt E context
                "I couldn't find any orders for your account. Would you like to check with a specific Order ID?"
                "order_status" entities in (c, Reply r)
        | user_orders =>
            (context,
             Reply {| response := "Here are your recent orders:";
                      intent := Some intent; entities := Some entities;
                      reply_products := []; reply_orders := user_orders;
                      escalated := false; escalation_offer := false;
                      reset_context := false |})
        end
    end in
  let tracking_shortcut :=
    if startswith "Track order " user_message
       || (contains "track" user_message_lower && contains "ORD-" user_message)
    then
      match search_order_id user_message with
      | Some m =>
          let '(c, r) := _handle_tracking_request context (upper m) entities in
          (c, Reply r)
      | None => listing
      end
    else listing in
  if any_in ["track"; "warranty"; "cancel"; "return"] user_message_lower then
    match search_order_id user_message with
    | Some m =>
        if contains "track" user_message_lower then
          let '(c, r) := _handle_tracking_request context (upper m) entities in
          (c, Reply r)
        else if contains "warranty" user_message_lower then
          _handle_transaction_intent context "warranty_claim" entities
        else if contains "cancel" user_message_lower then
          _handle_transaction_intent context "cancellation_request" entities
        else if contains "return" user_message_lower then
          _handle_transaction_intent context "return_request" entities
        else tracking_shortcut
    | None => tracking_shortcut
    end
  else tracking_shortcut.

Definition warranty_queries : list string :=
  ["warranty claim"; "warranty request"; "file warranty"; "make warranty"].

(* [_handle_context_switching]; [NoReply] lets the router go on *)
Definition _handle_context_switching (context : gmap string value)
    (user_message : string) : gmap string value * outcome :=
  let user_message_lower := lower user_message in
  if _is_warranty_policy_inquiry user_message then
    let '(c, r) := _handle_warranty_policy_inquiry E context in (c, Reply r)
  else if any_in warranty_queries user_message_lower then
    let context := pop_all purchase_context_keys context in
    match search_order_id_loose user_message with
    | Some order_id =>
        _handle_transaction_intent context "warranty_claim"
          {[ "order_id" := order_id ]}
    | None =>
        let '(c, r) :=
          _handle_with_gpt E
            (<["transaction_type" := VStr "warranty"]>
               (<["awaiting_order_id" := VBool true]> context))
            "I can help with your warranty claim. Please provide your Order ID."
            "warranty_claim" ∅ in (c, Reply r)
    end
  else (context, NoReply).

Definition comparison_words : list string :=
  ["compare"; "comparison"; "vs"; "versus"; "difference between"].

Definition general_chat_patterns : list string :=
  ["is this.*available in"; "how do i track"; "can i return";
   "what.*warranty"; "how.*return"; "where.*track";
   "do you have"; "when will"; "how long"; "what is";
   "tell me about"; "explain"; "help with"].

Definition complex_indicators : list string :=
  ["what is the difference"; "how does"; "why should"; "tell me about";
   "explain"; "pros and cons"; "advantages and disadvantages"].

Definition _should_use_gpt_directly (user_message : string) : bool :=
  (1 <=? count_char newline user_message)%nat
  || any_in (comparison_words ++ ["which is better"]) (lower user_message)
  || any_in general_chat_patterns (lower user_message)
  || any_in complex_indicators (lower user_message).

End Workflow.

Section Shopping.
Variable E : collaborators.

Definition with_products (text : string) (intent : string)
    (entities : gmap string string) (ps : list product) : reply :=
  {| response := text; intent := Some intent; entities := Some entities;
     reply_products := ps; reply_orders := [];
     escalated := false; escalation_offer := false; reset_context := false |}.

Definition product_line (p : product) : string :=
  "• " ++ brand p ++ " " ++ name p ++ " - ¥" ++ fmt_commas (price p)
  ++ " - " ++ ram p ++ " - " ++ processor p ++ nl.

Definition _generate_comparison_response (ps : list product)
    (user_message : string) : string :=
  render E (PComparison ps user_message)
    ("I found " ++ pretty (length ps) ++ " products for comparison:" ++ nl ++ nl
     ++ join EmptyString (map product_line ps)).

(* the first match scoring above 0.3 that yields a product record *)
Definition best_match (matches : list pmatch) : option product :=
  head (omap (fun m => if Qlt_bool (3 # 10)%Q (match_score m)
                       then _extract_product_data m else None) matches).

Definition _handle_comparison_request (context : gmap string value)
    (user_message intent : string) (entities : gmap string string)
  : gmap string value * reply :=
  let comparison_products := extract_comparison_products E user_message in
  if (length comparison_products <? 2)%nat then
    _handle_with_gpt E context
      "I need at least two products to compare. Please specify which models you'd like to compare."
      intent entities
  else
    let products_to_compare :=
      omap (fun product_name =>
              match search_products E product_name 3 with
              | Some matches => best_match matches
              | None => None
              end) comparison_products in
    if (length products_to_compare <? 2)%nat then
      _handle_with_gpt E context
        "I couldn't find enough matching products to compare. Please be more specific about the models."
        intent entities
    else
      (context,
       with_products (_generate_comparison_response products_to_compare user_message)
         "product_comparison" entities products_to_compare).

Definition color_names : list string :=
  ["blue"; "red"; "black"; "silver"; "gray"; "white"; "gold"; "pink"; "green"].

Definition _extract_color_from_message (message : string) : list string :=
  List.filter (fun color => contains color (lower message)) color_names.

Definition has_color_info (p : product) : bool :=
  negb (is_empty (colors p))
  && negb (String.eqb (colors p) "Not specified")
  && negb (String.eqb (colors p) "N/A").

Definition _handle_color_inquiry (context : gmap string value)
    (user_message intent : string) (entities : gmap string string)
  : gmap string value * outcome :=
  let current_products := context !! "current_products" in
  if truthy current_products then
    match current_products with
    | Some (VProducts ps) =>
        let color_entities := _extract_color_from_message user_message in
        let products_with_colors := List.filter has_color_info ps in
        let response_text :=
          match products_with_colors with
          | [] =>
              render E (PNoColor ps user_message)
                "I don't have specific color information for these models. You might want to check the product details page for available color options."
          | _ =>
              render E (PColor products_with_colors color_entities user_message)
                ("Here are the available colors:" ++ nl
                 ++ join nl (map (fun p => brand p ++ " " ++ name p ++ ": "
                                           ++ colors p) products_with_colors))
          end in
        (context, Reply (with_products response_text intent entities ps))
    | _ => (context, Raise)
    end
  else
    let '(c, r) := _handle_with_gpt E context user_message intent entities in
    (c, Reply r).

Definition _handle_no_products_with_gpt (search_query intent : string)
    (entities : gmap string string) : reply :=
  let query_lower := lower search_query in
  let response_text :=
    if any_in ["gaming"; "game"; "gamer"] query_lower then
      "Looking for a gaming laptop? Great choice! Could you tell me your budget range and any specific features you'd like, like graphics card or screen size?"
    else if any_in ["business"; "work"; "office"] query_lower then
      "For business use, I recommend looking at reliable brands with good battery life. What's your budget and do you need specific features like lightweight design or long battery life?"
    else if any_in ["student"; "school"; "college"] query_lower then
      "Perfect for student life! What's your budget range? Student laptops usually offer great value with good performance for studying and entertainment."
    else if any_in ["budget"; "cheap"; "affordable"; "price"] query_lower then
      "Looking for a great value laptop? I can help! What's your maximum budget and what will you mainly use it for?"
    else
      "I'd love to help you find the perfect laptop! Could you tell me more about what you're looking for? For example:"
      ++ nl ++ "• Your budget range" ++ nl ++ "• Preferred brand" ++ nl
      ++ "• What you'll use it for" ++ nl ++ "• Any specific features you need" in
  plain response_text (Some intent) (Some entities).

Definition _handle_purchase_flow (context : gmap string value)
    (user_message intent : string) (entities : gmap string string)
  : gmap string value * reply :=
  let search_query := create_search_query E user_message in
  let context := <["last_search_query" := VStr search_query]> context in
  let budget_constraints :=
    match entities !! "max_price" with
    | Some budget_text => _parse_budget_constraints budget_text
    | None => None
    end in
  let recommendations :=
    _get_product_recommendations (fun q => search_products E q 50)
      (query_by_brand E) search_query budget_constraints in
  match recommendations with
  | Some r =>
      match products r with
      | [] => (context, _handle_no_products_with_gpt search_query intent entities)
      | ps =>
          (<["current_products" := VProducts ps]> context,
           with_products
             (render E (PProducts ps search_query user_message)
                ("I found " ++ pretty (length ps)
                 ++ " laptops matching your search. Here are the best options:"))
             intent entities ps)
      end
  | None => (context, _handle_no_products_with_gpt search_query intent entities)
  end.

End Shopping.

(** *** The router: [handle_message] *)

Definition with_context (m : manager) (c : gmap string value) : manager :=
  {| context := c; user_data := user_data m;
     response_count := response_count m;
     escalation_offered := escalation_offered m;
     escalation_pending := escalation_pending m;
     conversation_history := conversation_history m;
     transactions := transactions m |}.

Definition with_transactions (m : manager) (st : store) : manager :=
  {| context := context m; user_data := user_data m;
     response_count := response_count m;
     escalation_offered := escalation_offered m;
     escalation_pending := escalation_pending m;
     conversation_history := conversation_history m;
     transactions := st |}.

Definition with_history (m : manager) (h : list (string * string)) : manager :=
  {| context := context m; user_data := user_data m;
     response_count := response_count m;
     escalation_offered := escalation_offered m;
     escalation_pending := escalation_pending m;
     conversation_history := h;
     transactions := transactions m |}.

Definition with_escalation (m : manager) (count : nat) (offered pending : bool)
  : manager :=
  {| context := context m; user_data := user_data m;
     response_count := count;
     escalation_offered := offered;
     escalation_pending := pending;
     conversation_history := conversation_history m;
     transactions := transactions m |}.

Definition menu_commands : list string :=
  ["main menu"; "menu"; "home"; "ホーム"; "メインメニュー"].

Definition is_menu_command (user_message : string) : bool :=
  mem (lower user_message) menu_commands.

Definition purchase_keywords : list string :=
  ["laptop"; "buy"; "purchase"; "computer"].

Definition color_words : list string :=
  ["color"; "colour"; "blue"; "red"; "black"; "silver"; "gray"; "white"].

Definition menu_cleared_keys : list string :=
  ["current_products"; "last_search_query"; "in_purchase_flow";
   "awaiting_confirmation"; "transaction_type"; "transaction_reason";
   "current_order"; "current_order_id"; "awaiting_reason"; "awaiting_order_id"].

Definition _handle_main_menu (m : manager) : manager * reply :=
  let context :=
    pop_all menu_cleared_keys {[ "user_data" := VUser (user_data m) ]} in
  (with_escalation (with_context m context) 0 false false,
   {| response := "🏠 Main Menu - How can I help you today?";
      intent := Some "main_menu"; entities := Some ∅;
      reply_products := []; reply_orders := [];
      escalated := false; escalation_offer := false; reset_context := true |}).

Definition _offer_escalation (m : manager) : manager * reply :=
  (with_escalation m (response_count m) true (escalation_pending m),
   {| response := "I've been helping you for a while. Would you like to speak with a human agent for more personalized assistance?";
      intent := Some "escalation_offer"; entities := Some ∅;
      reply_products := []; reply_orders := [];
      escalated := false; escalation_offer := true; reset_context := false |}).

(* steps 8 of the router: drop purchase keys on a topic change *)
Definition context_bleed_cleanup (context : gmap string value)
    (intent user_message : string) : gmap string value :=
  let context :=
    if String.eqb intent "order_status" && truthy (context !! "in_purchase_flow")
    then pop_all purchase_cache_keys (<["in_purchase_flow" := VBool false]> context)
    else context in
  if negb (String.eqb intent "product_inquiry")
     && negb (truthy (context !! "in_purchase_flow"))
     && negb (any_in purchase_keywords (lower user_message))
  then pop_all purchase_context_keys context
  else context.

Inductive route :=
  | RComparison | RColor | RPurchase
  | RConfirmation | RReason | ROrderId | RWarrantyConfirmation
  | RTransaction | ROrderStatus | RFallback.

(* the if / elif chain of [handle_message] *)
Definition dispatch (context : gmap string value) (intent user_message : string)
  : route :=
  let user_message_lower := lower user_message in
  if any_in comparison_words user_message_lower then RComparison
  else if truthy (context !! "current_products")
          && any_in color_words user_message_lower then RColor
  else if String.eqb intent "product_inquiry"
          || truthy (context !! "in_purchase_flow")
          || any_in purchase_keywords user_message_lower then RPurchase
  else if truthy (context !! "awaiting_confirmation") then RConfirmation
  else if truthy (context !! "awaiting_reason") then RReason
  else if truthy (context !! "awaiting_order_id") then ROrderId
  else if truthy (context !! "awaiting_warranty_confirmation")
       then RWarrantyConfirmation
  else if mem intent ["return_request"; "cancellation_request"; "warranty_claim"]
       then RTransaction
  else if String.eqb intent "order_status" then ROrderStatus
  else RFallback.

Definition nlu_brands : list string :=
  ["acer"; "hp"; "lenovo"; "dell"; "apple"; "asus"; "infinix"; "msi";
   "realme"; "redmi"; "gigabyte"; "samsung"; "avita"; "redmibook"].

Section Router.
Variable E : collaborators.

Definition _handle_escalation_response (m : manager) (user_message : string)
  : manager * reply :=
  let m := with_escalation m (response_count m) (escalation_offered m) false in
  if accepts_escalation user_message then
    if escalate_to_agent E (user_data m) (conversation_history m) then
      (m,
       {| response := "I'm connecting you with a human agent. Please wait while we connect your call..."
                      ++ nl ++ nl ++ "✅ Connected! An agent will be with you shortly.";
          intent := Some "escalation_success"; entities := Some ∅;
          reply_products := []; reply_orders := [];
          escalated := true; escalation_offer := false;
          reset_context := false |})
    else
      (m, plain "I apologize, but all our agents are currently busy. Please try again in a few minutes or continue chatting with me."
            (Some "escalation_failed") (Some ∅))
  else
    let '(c, r) :=
      _handle_with_gpt E (context m) user_message "general_question" ∅ in
    (with_context m c, r).

(* the order-id rule and the brand rule in front of the language model *)
Definition _understand_with_gpt (user_message : string)
    (context : gmap string value) : string * gmap string string :=
  match search_order_id_loose user_message with
  | Some order_id => ("order_status", {[ "order_id" := order_id ]})
  | None =>
      match detect_brand nlu_brands (lower user_message) with
      | Some detected_brand => ("product_inquiry", {[ "brand" := detected_brand ]})
      | None => nlu E user_message context
      end
  end.

(* the handler selected by [dispatch] *)
Definition run_route (r : route) (context : gmap string value) (st : store)
    (user_data : gmap string string) (user_message intent : string)
    (entities : gmap string string)
  : gmap string value * store * outcome :=
  match r with
  | RComparison =>
      let '(c, x) := _handle_comparison_request E context user_message intent entities in
      (c, st, Reply x)
  | RColor =>
      let '(c, x) := _handle_color_inquiry E context user_message intent entities in
      (c, st, x)
  | RPurchase =>
      let '(c, x) :=
        _handle_purchase_flow E (<["in_purchase_flow" := VBool true]> context)
          user_message intent entities in
      (c, st, Reply x)
  | RConfirmation =>
      _handle_transaction_confirmation E context st user_data user_message entities
  | RReason =>
      let '(c, x) := _handle_reason_response E context user_message entities in
      (c, st, x)
  | ROrderId =>
      let '(c, x) := _handle_order_id_response E context user_message intent entities in
      (c, st, Reply x)
  | RWarrantyConfirmation =>
      let '(c, x) := _handle_warranty_confirmation E context user_message entities in
      (c, st, Reply x)
  | RTransaction =>
      let '(c, x) := _handle_transaction_intent E context intent entities in
      (c, st, x)
  | ROrderStatus =>
      let '(c, x) := _handle_order_status E context user_data user_message intent entities in
      (c, st, x)
  | RFallback =>
      let '(c, x) := _handle_with_gpt E context user_message intent entities in
      (c, st, Reply x)
  end.

(* the body of the [try] block; the boolean tells a direct [return],
   which skips the history append *)
Definition routed (context : gmap string value) (st : store)
    (user_data : gmap string string) (user_message : string)
  : gmap string value * store * outcome * bool :=
  if _is_warranty_policy_inquiry user_message then
    let '(c, r) := _handle_warranty_policy_inquiry E context in
    (c, st, Reply r, true)
  else
    match _handle_context_switching E context user_message with
    | (c, Reply r) => (c, st, Reply r, true)
    | (c, Raise) => (c, st, Raise, true)
    | (context, NoReply) =>
        if _should_use_gpt_directly user_message then
          let '(c, r) :=
            _handle_with_gpt E context user_message "general_question" ∅ in
          (c, st, Reply r, true)
        else
          let '(intent, entities) := _understand_with_gpt user_message context in
          let context := update_with entities context in
          let context := context_bleed_cleanup context intent user_message in
          let '(c, st', x) :=
            run_route (dispatch context intent user_message) context st
              user_data user_message intent entities in
          (c, st', x, false)
    end.

Definition handle_message (m : manager) (user_message : string)
    (user : gmap string string) (initial_context : gmap string value)
  : manager * reply :=
  if is_menu_command user_message then _handle_main_menu m
  else
    let loaded :=
      match initial_context !! "user_data" with
      | Some _ => initial_context
      | None => <["user_data" := VUser user]> initial_context
      end in
    let m :=
      {| context := loaded; user_data := user;
         response_count := response_count m;
         escalation_offered := escalation_offered m;
         escalation_pending := escalation_pending m;
         conversation_history :=
           conversation_history m ++ [("user", user_message)];
         transactions := transactions m |} in
    if escalation_pending m then _handle_escalation_response m user_message
    else
      let m :=
        with_escalation m (S (response_count m)) (escalation_offered m)
          (escalation_pending m) in
      if (4 <=? response_count m)%nat && negb (escalation_offered m)
      then _offer_escalation m
      else
        let '(c, st, x, direct) :=
          routed (context m) (transactions m) (user_data m) user_message in
        let m := with_transactions (with_context m c) st in
        match x with
        | Reply r =>
            (if direct then m
             else with_history m
                    (conversation_history m ++ [("assistant", response r)]),
             r)
        | _ => (m, _handle_with_gpt_fallback E user_message)
        end.

(** *** The message loop of the websocket endpoint *)

Record session := {
  mgr : manager;
  stored_context : gmap string value;  (* the context column of the session row *)
  closed : bool
}.

Definition session_step (user : gmap string string) (s : session)
    (content : string) : session * list reply :=
  let user_message := strip content in
  if is_empty user_message then (s, [])
  else
    let '(m, r) := handle_message (mgr s) user_message user (stored_context s) in
    ({| mgr := m; stored_context := context m; closed := escalated r |}, [r]).

Fixpoint run_session (user : gmap string string) (s : session)
    (contents : list string) : session * list reply :=
  match contents with
  | [] => (s, [])
  | content :: rest =>
      if closed s then (s, [])
      else
        let '(s1, r1) := session_step user s content in
        let '(s2, r2) := run_session user s1 rest in
        (s2, (r1 ++ r2)%list)
  end.

End Router.

(* [DialogueManager.__init__] *)
Definition new_manager : manager :=
  {| context := ∅; user_data := ∅; response_count := 0;
     escalation_offered := false; escalation_pending := false;
     conversation_history := [];
     transactions := {| committed := []; uuid_calls := 0 |} |}.

(* the session row written when the websocket is accepted *)
Definition new_session (user : gmap string string) : session :=
  {| mgr := new_manager;
     stored_context := {[ "user_data" := VUser user ]};
     closed := false |}.

End Dialogue.

(** ** A concrete deployment used to run the model

    The language model is unavailable (every call raises, so the templates
    are used and the understanding falls back to [general_question]), the
    order lookup serves the sample orders of [_get_sample_order_info], and
    the product index holds two Dell laptops, found by the queries that
    name the brand. *)
Module Demo.
Import Budget Finder Transaction Dialogue.

Definition sample_order (oid product : string) (inr_price : Z)
    (order_status : string) : order :=
  {| order_id := Some oid; product_name := Some product;
     order_price := Some (py_round (inject_Z inr_price / yen_to_inr_rate)%Q);
     status := Some order_status; currency_symbol := Some "¥";
     product_id := None; currency := Some "JPY";
     order_date := Some "2025-09-01"; delivery_date := Some "2025-09-05";
     carrier := Some "BlueDart"; tracking_number := Some "700000000001" |}.

Definition sample_orders (oid : string) : option order :=
  let key := upper oid in
  if String.eqb key "ORD-1001"
  then Some (sample_order "ORD-1001" "HP Pavilion Gaming Laptop" 89900 "Delivered")
  else if String.eqb key "ORD-1002"
  then Some (sample_order "ORD-1002" "ASUS TUF Gaming F15 Core i5 10th Gen" 49990 "Delivered")
  else if String.eqb key "ORD-1005"
  then Some (sample_order "ORD-1005" "APPLE 2020 Macbook Air M1" 144983 "Confirmed")
  else None.

Definition laptop (pid title : string) (inr_price : Z) (tint : option string)
  : pmatch :=
  {| match_id := pid; match_score := (5 # 10)%Q;
     match_metadata :=
       {| md_product_id := Some pid; md_name := Some title;
          md_price := inject_Z inr_price; md_rating := 4%Q;
          md_brand := Some "Dell"; md_colors := tint;
          md_ram := Some "8 GB"; md_processor := Some "Core i5" |} |}.

Definition catalogue : list pmatch :=
  [laptop "p1" "Inspiron 15" 78000 (Some "Silver");
   laptop "p2" "Vostro 14" 60000 None].

Definition user : gmap string string :=
  {[ "user_id" := "7"; "username" := "aiko"; "first_name" := "Aiko" ]}.

Definition services (handoff : bool) : collaborators :=
  {| gpt := fun _ => None;
     nlu := fun _ _ => ("general_question", ∅);
     create_search_query := fun user_message => lower user_message;
     extract_comparison_products := fun _ => [];
     search_products :=
       fun query _ => if contains "dell" (lower query) then Some catalogue
                      else Some [];
     query_by_brand := fun _ => None;
     get_order := sample_orders;
     get_user_orders := fun _ => [];
     uuid4 := fun n => (0x123e4567e89b42d3a456426614174000 + N.of_nat n)%N;
     escalate_to_agent := fun _ _ => handoff;
     warranty_policies := default_policies |}.

End Demo.

(** * Properties *)

Import Budget Finder Transaction Dialogue.

(** ** Strings *)

Lemma is_digit_lower_char (c : ascii) : is_digit (lower_char c) = is_digit c.
Proof. destruct c as [[] [] [] [] [] [] [] []]; reflexivity. Qed.

Lemma has_digit_lower (s : string) : has_digit (lower s) = has_digit s.
Proof.
  unfold lower. induction s as [|c t IH]; simpl; [reflexivity|].
  now rewrite is_digit_lower_char, IH.
Qed.

Lemma is_empty_lower (s : string) : is_empty (lower s) = is_empty s.
Proof. now destruct s. Qed.

Lemma any_in_spec (words : list string) (text : string) :
  any_in words text = true <-> exists w, In w words /\ contains w text = true.
Proof. unfold any_in. apply existsb_exists. Qed.

Lemma length_smap (f : ascii -> ascii) (s : string) :
  String.length (smap f s) = String.length s.
Proof. induction s; simpl; congruence. Qed.

Lemma length_take (n : nat) (s : string) :
  (n <= String.length s)%nat -> String.length (take n s) = n.
Proof.
  revert s; induction n as [|n IH]; intros [|c t] H; simpl in *;
    try reflexivity; try lia.
  now rewrite IH by lia.
Qed.

Lemma take_app (n : nat) (s t : string) :
  (n <= String.length s)%nat -> take n (s ++ t) = take n s.
Proof.
  revert s; induction n as [|n IH]; intros [|c s] H; simpl in *;
    try reflexivity; try lia.
  rewrite IH by lia. reflexivity.
Qed.

(** ** Budget parser *)








(** ** Affirmative-word detection *)



(** ** Product Finder *)

Lemma Qlt_bool_false_iff (a b : Q) : Qlt_bool a b = false <-> (b <= a)%Q.
Proof.
  unfold Qlt_bool. rewrite negb_false_iff. apply Qle_bool_iff.
Qed.

(* what the strict filter keeps for a constraint of kind around: the band
   between 0.8 times its lower bound and 1.2 times its upper bound *)
Lemma filtered_out_around (bc : constraints) (hi : Q) (jpy_price : Z) :
  constraint_type bc = around ->
  max_price_jpy bc = Fin hi ->
  filtered_out (Some bc) jpy_price = false
  <-> (min_price_jpy bc * (8 # 10) <= inject_Z jpy_price)%Q
      /\ (inject_Z jpy_price <= hi * (12 # 10))%Q.
Proof.
  intros Hk Hhi. unfold filtered_out. rewrite Hk, Hhi. simpl.
  rewrite orb_false_iff, !Qlt_bool_false_iff. reflexivity.
Qed.

(* a constraint of kind around with a finite upper bound, as the parser
   builds it, already carries the band of 20 percent around its target *)
Lemma parse_around_bounds (budget_text : string) (bc : constraints) (hi : Q) :
  _parse_budget_constraints budget_text = Some bc ->
  constraint_type bc = around ->
  max_price_jpy bc = Fin hi ->
  min_price_jpy bc = (target_price_jpy bc * (8 # 10))%Q
  /\ hi = (target_price_jpy bc * (12 # 10))%Q.
Proof.
  unfold _parse_budget_constraints. intros Hp Hk Hhi.
  repeat case_match; simplify_eq; simpl in *; simplify_eq; split; reflexivity.
Qed.

(* so the prices the filter keeps for it range from 0.64 to 1.44 times the
   target *)
Lemma around_band_widened (budget_text : string) (bc : constraints) (hi : Q)
    (jpy_price : Z) :
  _parse_budget_constraints budget_text = Some bc ->
  constraint_type bc = around ->
  max_price_jpy bc = Fin hi ->
  filtered_out (Some bc) jpy_price = false
  <-> (target_price_jpy bc * (64 # 100) <= inject_Z jpy_price)%Q
      /\ (inject_Z jpy_price <= target_price_jpy bc * (144 # 100))%Q.
Proof.
  intros Hp Hk Hhi.
  destruct (parse_around_bounds _ _ _ Hp Hk Hhi) as [Hmin ->].
  rewrite (filtered_out_around bc _ jpy_price Hk Hhi), Hmin.
  rewrite <- !Qmult_assoc. reflexivity.
Qed.


(** ** Context store *)

Lemma lookup_pop_all (keys : list string) (c : gmap string value) (k : string) :
  pop_all keys c !! k = if bool_decide (k ∈ keys) then None else c !! k.
Proof.
  unfold pop_all. revert c.
  induction keys as [|k' keys IH]; intros c; simpl.
  - reflexivity.
  - rewrite IH. destruct (decide (k = k')) as [->|Hne].
    + rewrite lookup_delete_eq.
      rewrite (bool_decide_eq_true_2 (k' ∈ k' :: keys)) by apply list_elem_of_here.
      now destruct (bool_decide (k' ∈ keys)).
    + rewrite lookup_delete_ne by congruence.
      destruct (decide (k ∈ keys)) as [Hin|Hout].
      * rewrite !bool_decide_eq_true_2; auto. now apply list_elem_of_further.
      * rewrite !bool_decide_eq_false_2; auto.
        intros Hin. apply elem_of_cons in Hin as [?|?]; auto.
Qed.

Lemma lookup_pop_all_in (keys : list string) (c : gmap string value) (k : string) :
  k ∈ keys -> pop_all keys c !! k = None.
Proof. intros H. rewrite lookup_pop_all. now rewrite bool_decide_eq_true_2. Qed.

Lemma lookup_pop_all_notin (keys : list string) (c : gmap string value) (k : string) :
  k ∉ keys -> pop_all keys c !! k = c !! k.
Proof. intros H. rewrite lookup_pop_all. now rewrite bool_decide_eq_false_2. Qed.

Lemma handle_with_gpt_context (E : collaborators) (c : gmap string value)
    (user_message intent : string) (entities : gmap string string) :
  fst (_handle_with_gpt E c user_message intent entities)
  = if truthy (c !! "in_purchase_flow") then c
    else pop_all purchase_cache_keys c.
Proof. reflexivity. Qed.

(* keys outside the purchase cache survive the generic responder *)
Lemma handle_with_gpt_keeps (E : collaborators) (c : gmap string value)
    (user_message intent : string) (entities : gmap string string) (k : string) :
  k ∉ purchase_cache_keys ->
  fst (_handle_with_gpt E c user_message intent entities) !! k = c !! k.
Proof.
  intros Hk. rewrite handle_with_gpt_context.
  destruct (truthy _); [reflexivity|]. now apply lookup_pop_all_notin.
Qed.

Ltac not_listed :=
  let H := fresh in
  intros H; repeat (apply elem_of_cons in H as [H|H]; [discriminate H|]);
  now apply not_elem_of_nil in H.

Ltac listed :=
  repeat first [apply list_elem_of_here | apply list_elem_of_further].

(** ** Warranty-policy confirmation *)

(** C6 fails on the code: a non-affirmative answer to the warranty policy
    only sets awaiting_warranty_confirmation to false; the transaction type,
    the cached order snapshot and the order id stay in the context
    ([_reset_transaction_context] is not called on this path, as it is on the
    decline path of [_handle_transaction_confirmation]). *)
Theorem warranty_decline_keeps_transaction (E : collaborators)
    (c : gmap string value) (user_message : string)
    (entities : gmap string string) :
  confirms_warranty user_message = false ->
  let c' := fst (_handle_warranty_confirmation E c user_message entities) in
  c' !! "awaiting_warranty_confirmation" = Some (VBool false)
  /\ c' !! "transaction_type" = c !! "transaction_type"
  /\ c' !! "current_order" = c !! "current_order"
  /\ c' !! "current_order_id" = c !! "current_order_id".
Proof.
  intros Hno. unfold _handle_warranty_confirmation. rewrite Hno. cbv zeta.
  repeat split; (rewrite handle_with_gpt_keeps by not_listed);
    first [apply lookup_insert_eq | now rewrite lookup_insert_ne].
Qed.

Definition pending_warranty : gmap string value :=
  {[ "awaiting_warranty_confirmation" := VBool true;
     "transaction_type" := VStr "warranty";
     "current_order" :=
       VOrder (Demo.sample_order "ORD-1001" "HP Pavilion Gaming Laptop" 89900 "Delivered");
     "current_order_id" := VStr "ORD-1001" ]}.

Lemma warranty_decline_keeps_transaction_witness :
  confirms_warranty "no" = false
  /\ let c' := fst (_handle_warranty_confirmation (Demo.services true)
                      pending_warranty "no" ∅) in
     c' !! "awaiting_warranty_confirmation" = Some (VBool false)
     /\ c' !! "transaction_type" = pending_warranty !! "transaction_type"
     /\ c' !! "current_order" = pending_warranty !! "current_order"
     /\ c' !! "current_order_id" = pending_warranty !! "current_order_id".
Proof.
  split; [reflexivity|].
  exact (warranty_decline_keeps_transaction (Demo.services true)
           pending_warranty "no" ∅ eq_refl).
Defined.

(* the same through the router: after a warranty request and its order id,
   answering no leaves the warranty transaction in the session context *)
Lemma warranty_decline_in_session :
  let m := mgr (fst (run_session (Demo.services true) Demo.user
                       (new_session Demo.user) ["file warranty"; "ORD-1001"; "no"])) in
  context m !! "transaction_type" = Some (VStr "warranty")
  /\ context m !! "current_order_id" = Some (VStr "ORD-1001")
  /\ is_Some (context m !! "current_order")
  /\ context m !! "awaiting_warranty_confirmation" = Some (VBool false).
Proof. vm_compute. repeat split; eauto. Qed.

(** ** Main-menu reset *)



(* a session in the middle of a warranty request *)
Definition mid_transaction : session :=
  fst (run_session (Demo.services true) Demo.user (new_session Demo.user)
         ["file warranty"; "ORD-1001"]).


(* the state the witness starts from is mid-transaction, and the identity
   kept is the session's user *)
Lemma mid_transaction_state :
  truthy (stored_context mid_transaction !! "awaiting_warranty_confirmation") = true
  /\ stored_context mid_transaction !! "transaction_type" = Some (VStr "warranty")
  /\ user_data (mgr mid_transaction) = Demo.user
  /\ context (mgr mid_transaction) !! "user_data" = Some (VUser Demo.user).
Proof. vm_compute. repeat split. Qed.

(** ** Transaction ids *)

Lemma length_hex_digits (k : nat) (n : N) (acc : string) :
  String.length (hex_digits k n acc) = (k + String.length acc)%nat.
Proof.
  revert n acc; induction k as [|k IH]; intros n acc; simpl; [reflexivity|].
  rewrite IH. simpl. lia.
Qed.

(* the token of a transaction id has eight characters *)
Lemma transaction_token_length (u : N) :
  String.length (upper (take 8 (uuid_str u))) = 8%nat.
Proof.
  unfold upper. rewrite length_smap. unfold uuid_str.
  assert (H : String.length (take 8 (hex_digits 32 u EmptyString)) = 8%nat).
  { apply length_take. rewrite length_hex_digits. simpl. lia. }
  cbv zeta. rewrite take_app by (rewrite H; lia).
  apply length_take. rewrite H. lia.
Qed.

(** ** Transaction confirmation *)














Lemma is_empty_false (s : string) : s <> EmptyString -> is_empty s = false.
Proof. now destruct s. Qed.


(* a return of a delivered order, waiting for its confirmation *)
Definition awaiting_yes : gmap string value :=
  {[ "awaiting_confirmation" := VBool true;
     "transaction_type" := VStr "return";
     "transaction_reason" := VStr "Faulty/Defective";
     "current_order" :=
       VOrder (Demo.sample_order "ORD-1001" "HP Pavilion Gaming Laptop" 89900 "Delivered");
     "current_order_id" := VStr "ORD-1001" ]}.


(* the id of that commit, and the store after a later yes *)
Lemma confirmation_example :
  let result :=
    _handle_transaction_confirmation (Demo.services true) awaiting_yes
      {| committed := []; uuid_calls := 0 |} Demo.user "ok, go ahead" ∅ in
  map transaction_id (committed (snd (fst result))) = ["REF-123E4567"]
  /\ snd (fst (_handle_transaction_confirmation (Demo.services true)
                 (fst (fst result)) (snd (fst result)) Demo.user "yes" ∅))
     = snd (fst result).
Proof. vm_compute. split; reflexivity. Qed.

(** ** Context-bleed cleanup *)

(** C7 refuted as stated: after the product question [show me a dell
    laptop], the message [thanks a lot] resolves to general_question and
    holds no purchase keyword, yet the product cache, the last query and
    the purchase-flow flag are all still set; the color question that
    follows is dispatched to the color-inquiry shortcut and answered over
    the cached products of the first message. *)
Lemma stale_cache_serves_color_question :
  let E := Demo.services true in
  let first_reply :=
    run_session E Demo.user (new_session Demo.user) ["show me a dell laptop"] in
  let after_one := fst first_reply in
  let after_two := fst (session_step E Demo.user after_one "thanks a lot") in
  let c := stored_context after_two in
  let understood := _understand_with_gpt E "which color" c in
  fst (_understand_with_gpt E "thanks a lot" (stored_context after_one))
  = "general_question"
  /\ any_in purchase_keywords (lower "thanks a lot") = false
  /\ truthy (c !! "current_products") = true
  /\ c !! "current_products" = stored_context after_one !! "current_products"
  /\ c !! "last_search_query" = Some (VStr "thanks a lot")
  /\ c !! "in_purchase_flow" = Some (VBool true)
  /\ dispatch
       (context_bleed_cleanup (update_with (snd understood) c)
          (fst understood) "which color")
       (fst understood) "which color" = RColor
  /\ map reply_products (snd (session_step E Demo.user after_two "which color"))
     = map reply_products (snd first_reply)
  /\ map (fun r => length (reply_products r)) (snd first_reply) = [2%nat].
Proof. vm_compute. repeat split; reflexivity. Qed.

Lemma truthy_false_flag : truthy (Some (VBool false)) = false.
Proof. reflexivity. Qed.

(** C7, as the code has it: for a message that reaches intent resolution,
    whose intent is not product_inquiry and whose text holds no purchase
    keyword, the three purchase-context keys are removed when the
    purchase-flow flag is not set or the intent is order_status; when the
    flag is set and the intent is anything else the context is left as it
    is and the message goes to the comparison, color or purchase handler. *)
Theorem cleanup_guarded_by_purchase_flow (c : gmap string value)
    (intent user_message : string) :
  intent <> "product_inquiry" ->
  any_in purchase_keywords (lower user_message) = false ->
  let c' := context_bleed_cleanup c intent user_message in
  (truthy (c !! "in_purchase_flow") = false \/ intent = "order_status" ->
   forall k, In k ["current_products"; "last_search_query"; "in_purchase_flow"] ->
             c' !! k = None)
  /\ (truthy (c !! "in_purchase_flow") = true -> intent <> "order_status" ->
      c' = c
      /\ In (dispatch c' intent user_message) [RComparison; RColor; RPurchase]).
Proof.
  intros Hi Hk. cbv zeta. unfold context_bleed_cleanup. rewrite Hk.
  apply String.eqb_neq in Hi. rewrite Hi. cbn [negb andb].
  rewrite !andb_true_r.
  split.
  - intros Hcase k Hin. apply list_elem_of_In in Hin.
    destruct (String.eqb intent "order_status") eqn:Hos; cbn [andb].
    + destruct (truthy (c !! "in_purchase_flow")) eqn:Hf.
      * rewrite lookup_pop_all_notin by not_listed.
        rewrite lookup_insert_eq, truthy_false_flag. cbn [negb].
        now apply lookup_pop_all_in.
      * rewrite Hf. cbn [negb]. now apply lookup_pop_all_in.
    + destruct Hcase as [Hf| ->]; [|discriminate Hos].
      rewrite Hf. cbn [negb]. now apply lookup_pop_all_in.
  - intros Hf Hnot. apply String.eqb_neq in Hnot. rewrite Hnot. cbn [andb].
    rewrite Hf. cbn [negb]. split; [reflexivity|].
    unfold dispatch. rewrite Hf, Hi. cbn [orb].
    repeat case_match; simpl; tauto.
Qed.

Definition browsing_over : gmap string value :=
  {[ "current_products" := VProducts [];
     "last_search_query" := VStr "dell" ]}.

Lemma cleanup_guarded_by_purchase_flow_witness :
  "general_question" <> "product_inquiry"
  /\ any_in purchase_keywords (lower "thanks a lot") = false
  /\ let c' := context_bleed_cleanup browsing_over "general_question" "thanks a lot" in
     (truthy (browsing_over !! "in_purchase_flow") = false
      \/ "general_question" = "order_status" ->
      forall k, In k ["current_products"; "last_search_query"; "in_purchase_flow"] ->
                c' !! k = None)
     /\ (truthy (browsing_over !! "in_purchase_flow") = true ->
         "general_question" <> "order_status" ->
         c' = browsing_over
         /\ In (dispatch c' "general_question" "thanks a lot")
              [RComparison; RColor; RPurchase]).
Proof.
  split; [discriminate|]. split; [reflexivity|].
  apply (cleanup_guarded_by_purchase_flow browsing_over "general_question"
           "thanks a lot"); [discriminate|reflexivity].
Defined.

(** ** Waiting flags *)

Definition waiting_flags (m : manager) : list bool :=
  [truthy (context m !! "awaiting_confirmation");
   truthy (context m !! "awaiting_reason");
   truthy (context m !! "awaiting_order_id");
   truthy (context m !! "awaiting_warranty_confirmation");
   escalation_pending m].

Definition at_most_one_waiting (m : manager) : bool :=
  (length (List.filter (fun b : bool => b) (waiting_flags m)) <=? 1)%nat.

(** C2 refuted as stated: a warranty request without an order id sets
    awaiting_order_id, and the warranty-policy question that follows sets
    awaiting_warranty_confirmation without clearing it; both flags are true
    in the state reached. *)
Lemma two_waiting_flags_reachable :
  let m := mgr (fst (run_session (Demo.services true) Demo.user
                       (new_session Demo.user)
                       ["file warranty"; "warranty policy"])) in
  context m !! "awaiting_order_id" = Some (VBool true)
  /\ context m !! "awaiting_warranty_confirmation" = Some (VBool true)
  /\ at_most_one_waiting m = false.
Proof. vm_compute. repeat split; reflexivity. Qed.

Lemma handle_message_not_pending (E : collaborators) (m : manager)
    (user_message : string) (user : gmap string string)
    (initial_context : gmap string value) :
  escalation_pending (fst (handle_message E m user_message user initial_context))
  = false.
Proof.
  unfold handle_message.
  destruct (is_menu_command user_message); [reflexivity|].
  cbn [escalation_pending].
  destruct (escalation_pending m).
  { unfold _handle_escalation_response. repeat case_match; reflexivity. }
  cbn [with_escalation with_context with_transactions with_history
       context transactions user_data response_count escalation_offered
       escalation_pending conversation_history].
  destruct (_ && _); [reflexivity|].
  destruct (routed _ _ _ _ _) as [[[c st] x] direct].
  destruct x; [destruct direct|..]; reflexivity.
Qed.

Lemma run_session_not_pending (E : collaborators) (user : gmap string string)
    (contents : list string) (s : session) :
  escalation_pending (mgr s) = false ->
  escalation_pending (mgr (fst (run_session E user s contents))) = false.
Proof.
  revert s. induction contents as [|content rest IH]; intros s Hs; simpl.
  - exact Hs.
  - destruct (closed s); [exact Hs|].
    destruct (session_step E user s content) as [s1 r1] eqn:H1.
    specialize (IH s1).
    destruct (run_session E user s1 rest) as [s2 r2]. simpl in *.
    apply IH. unfold session_step in H1.
    destruct (is_empty (strip content)); [now inversion H1; subst|].
    destruct (handle_message E (mgr s) (strip content) user (stored_context s))
      as [m r] eqn:Hm.
    inversion H1; subst; simpl.
    change m with (fst (m, r)). rewrite <- Hm. apply handle_message_not_pending.
Qed.

(** C2, as the code has it: in every state reachable by any sequence of
    handled messages escalation_pending is false, so it is never true
    together with another waiting flag; the four flags kept in the context
    may be true together, and the router then serves only the first that is
    set, in the order awaiting_confirmation, awaiting_reason,
    awaiting_order_id, awaiting_warranty_confirmation. *)
Theorem escalation_never_pending (E : collaborators) (user : gmap string string)
    (contents : list string) :
  escalation_pending
    (mgr (fst (run_session E user (new_session user) contents))) = false
  /\ forall (c : gmap string value) (intent user_message : string),
       (dispatch c intent user_message = RReason ->
        truthy (c !! "awaiting_confirmation") = false)
       /\ (dispatch c intent user_message = ROrderId ->
           truthy (c !! "awaiting_confirmation") = false
           /\ truthy (c !! "awaiting_reason") = false)
       /\ (dispatch c intent user_message = RWarrantyConfirmation ->
           truthy (c !! "awaiting_confirmation") = false
           /\ truthy (c !! "awaiting_reason") = false
           /\ truthy (c !! "awaiting_order_id") = false).
Proof.
  split; [now apply run_session_not_pending|].
  intros c intent user_message. unfold dispatch.
  repeat case_match; repeat split; intros; try discriminate; reflexivity.
Qed.

(** ** Escalation *)

(* a handler outcome that does not end the exchange *)
Definition calm (x : outcome) : Prop :=
  match x with
  | Reply r => escalated r = false
  | _ => True
  end.

Ltac unfold_handlers :=
  unfold _handle_comparison_request, _handle_color_inquiry,
    _handle_purchase_flow, _handle_no_products_with_gpt,
    _handle_transaction_confirmation, _handle_reason_response,
    _handle_order_id_response, _handle_warranty_confirmation,
    _handle_order_status, _handle_tracking_request,
    _handle_transaction_intent, _show_order_and_ask_for_reason,
    _ask_for_confirmation, _ask_for_reason, _handle_warranty_policy_inquiry,
    _handle_with_gpt, _handle_with_gpt_fallback, generate_response,
    with_products, plain in *.

Ltac settle_calm :=
  unfold_handlers; cbv zeta;
  repeat (case_match; simplify_eq; cbn [fst snd calm escalated] in * );
  try exact I; try reflexivity.

Lemma run_route_calm (E : collaborators) (r : route) (c : gmap string value)
    (st : store) (user_data : gmap string string) (user_message intent : string)
    (entities : gmap string string) :
  calm (snd (run_route E r c st user_data user_message intent entities)).
Proof. destruct r; cbn [run_route]; settle_calm. Qed.

Lemma routed_calm (E : collaborators) (c : gmap string value) (st : store)
    (user_data : gmap string string) (user_message : string) :
  calm (snd (fst (routed E c st user_data user_message))).
Proof.
  unfold routed.
  destruct (_is_warranty_policy_inquiry user_message); [reflexivity|].
  destruct (_handle_context_switching E c user_message) as [c' x] eqn:Hs.
  assert (Hx : calm x).
  { change x with (snd (c', x)). rewrite <- Hs. clear Hs.
    unfold _handle_context_switching. settle_calm. }
  destruct x as [r| |]; [exact Hx| |exact I].
  destruct (_should_use_gpt_directly user_message).
  { settle_calm. }
  destruct (_understand_with_gpt E user_message c') as [intent entities].
  pose proof (run_route_calm E
    (dispatch (context_bleed_cleanup (update_with entities c') intent user_message)
       intent user_message)
    (context_bleed_cleanup (update_with entities c') intent user_message)
    st user_data user_message intent entities) as Hr.
  destruct (run_route _ _ _ _ _ _ _ _) as [[c2 st2] y]. exact Hr.
Qed.

(* unless an escalation answer is pending, no response is marked escalated *)
Lemma handle_message_calm (E : collaborators) (m : manager)
    (user_message : string) (user : gmap string string)
    (initial_context : gmap string value) :
  escalation_pending m = false ->
  escalated (snd (handle_message E m user_message user initial_context)) = false.
Proof.
  intros Hp. unfold handle_message.
  destruct (is_menu_command user_message); [reflexivity|].
  cbn [escalation_pending]. rewrite Hp.
  cbn [with_escalation with_context with_transactions with_history
       context transactions user_data response_count escalation_offered
       escalation_pending conversation_history].
  destruct (_ && _); [reflexivity|].
  match goal with
  | |- context [routed ?E ?c ?st ?u ?msg] =>
      pose proof (routed_calm E c st u msg) as Hr;
      destruct (routed E c st u msg) as [[[c1 st1] x] direct]
  end.
  destruct x; [destruct direct; exact Hr|..]; reflexivity.
Qed.

Lemma run_session_calm (E : collaborators) (user : gmap string string)
    (contents : list string) (s : session) :
  escalation_pending (mgr s) = false ->
  Forall (fun r => escalated r = false) (snd (run_session E user s contents)).
Proof.
  revert s. induction contents as [|content rest IH]; intros s Hs; simpl.
  - constructor.
  - destruct (closed s); [constructor|].
    destruct (session_step E user s content) as [s1 r1] eqn:H1.
    specialize (IH s1).
    destruct (run_session E user s1 rest) as [s2 r2]. simpl in *.
    unfold session_step in H1.
    destruct (is_empty (strip content)).
    { inversion H1; subst. simpl. now apply IH. }
    destruct (handle_message E (mgr s) (strip content) user (stored_context s))
      as [m r] eqn:Hm.
    inversion H1; subst; simpl. constructor.
    + change r with (snd (m, r)). rewrite <- Hm. now apply handle_message_calm.
    + apply IH. simpl. change m with (fst (m, r)). rewrite <- Hm.
      apply handle_message_not_pending.
Qed.

(* no session ever yields a response with escalated set, whatever the
   hand-off collaborator would answer *)
Lemma never_escalated (E : collaborators) (user : gmap string string)
    (contents : list string) :
  Forall (fun r => escalated r = false)
    (snd (run_session E user (new_session user) contents)).
Proof. now apply run_session_calm. Qed.

(** C3 fails on the code: four messages bring the escalation offer, once,
    but [_offer_escalation] never sets escalation_pending, so the reply
    [yes] that follows is not read as an acceptance: it goes through the
    normal routing, the hand-off (which would succeed here) is not
    attempted, and the response does not carry escalated. *)
Theorem offer_is_never_followed_up :
  let E := Demo.services true in
  let run :=
    run_session E Demo.user (new_session Demo.user)
      ["hi"; "hi"; "hi"; "hi"; "yes"] in
  let offered :=
    fst (run_session E Demo.user (new_session Demo.user) ["hi"; "hi"; "hi"; "hi"]) in
  map escalation_offer (snd run) = [false; false; false; true; false]
  /\ escalation_offered (mgr offered) = true
  /\ escalation_pending (mgr offered) = false
  /\ accepts_escalation "yes" = true
  /\ escalate_to_agent E Demo.user (conversation_history (mgr (fst run))) = true
  /\ map escalated (snd run) = [false; false; false; false; false]
  /\ map intent (snd run) = [None; None; None; Some "escalation_offer"; None]
  /\ closed (fst run) = false.
Proof. vm_compute. repeat split; reflexivity. Qed.

(** ** Eligibility by order status *)

Definition waiting_keys : list string :=
  ["awaiting_confirmation"; "awaiting_reason"; "awaiting_order_id";
   "awaiting_warranty_confirmation"].

(* on the entry path, where the order id is known when the intent arrives,
   the three status rules hold and no waiting flag changes *)
Lemma transaction_intent_gates (E : collaborators) (c : gmap string value)
    (intent : string) (entities : gmap string string) (oid : string) (o : order) :
  known_order_id c entities = Some (VStr oid) ->
  oid <> EmptyString ->
  get_order E oid = Some o ->
  let current := lower (default EmptyString (status o)) in
  let result := _handle_transaction_intent E c intent entities in
  (forall k, In k waiting_keys ->
     (intent = "cancellation_request" /\ current = "delivered")
     \/ (intent = "return_request" /\ current <> "delivered")
     \/ (intent = "warranty_claim" /\ current <> "delivered") ->
     fst result !! k = c !! k)
  /\ (intent = "cancellation_request" -> current = "delivered" ->
      snd result
      = Reply (generate_response "cancellation_request" entities
                 "This order has already been delivered. Cancellation is not possible for delivered orders. Would you like to initiate a return instead?"))
  /\ (intent = "return_request" -> current <> "delivered" ->
      snd result
      = Reply (generate_response "return_request" entities
                 ("This order has status: " ++ current
                  ++ ". Returns are only possible for delivered items.")))
  /\ (intent = "warranty_claim" -> current <> "delivered" ->
      snd result
      = Reply (generate_response "warranty_claim" entities
                 ("This order has status: " ++ current
                  ++ ". Warranty claims are only possible for delivered items."))).
Proof.
  intros Hid Hne Hget. cbv zeta. unfold _handle_transaction_intent.
  rewrite Hid. cbn [truthy]. rewrite (is_empty_false _ Hne). cbn [negb].
  rewrite Hget.
  assert (Heq : forall a b : string, a = b -> String.eqb a b = true)
    by (intros a b; apply String.eqb_eq).
  assert (Hneq : forall a b : string, a <> b -> String.eqb a b = false)
    by (intros a b; apply String.eqb_neq).
  split.
  - intros k Hk Hcase. apply list_elem_of_In in Hk.
    assert (Hk' : forall k', k' ∉ waiting_keys -> k' <> k).
    { intros k' Hn ->. contradiction. }
    destruct Hcase as [[-> Hs]|[[-> Hs]|[-> Hs]]]; cbn;
      first [rewrite (Heq _ _ Hs) | rewrite (Hneq _ _ Hs)]; cbn;
      rewrite !lookup_insert_ne by (apply Hk'; not_listed); reflexivity.
  - split; [|split]; intros -> Hs; cbn;
      first [rewrite (Heq _ _ Hs) | rewrite (Hneq _ _ Hs)]; reflexivity.
Qed.

(** C5 fails on the code: when the order id is given in answer to the
    request for it ([_handle_order_id_response], the order-id step after
    AWAITING_ORDER_ID), no status rule is applied. A warranty claim on
    order ORD-1005, whose status is confirmed and not delivered, is not
    rejected: the policy is shown, awaiting_warranty_confirmation is set,
    and the session goes on to commit the claim. *)
Theorem order_id_step_skips_eligibility :
  let E := Demo.services true in
  let c : gmap string value :=
    {[ "awaiting_order_id" := VBool true; "transaction_type" := VStr "warranty" ]} in
  let result :=
    _handle_order_id_response E c "ORD-1005" "order_status"
      {[ "order_id" := "ORD-1005" ]} in
  let run :=
    run_session E Demo.user (new_session Demo.user)
      ["file warranty"; "ORD-1005"; "yes"; "anything"; "screen"; "yes"] in
  (status <$> get_order E "ORD-1005") = Some (Some "Confirmed")
  /\ fst result !! "awaiting_warranty_confirmation" = Some (VBool true)
  /\ intent (snd result) = Some "warranty_policy"
  /\ response (snd result) = policy_text E
  /\ map (fun t => (transaction_id t, order_id (tx_order t), status (tx_order t)))
       (committed (transactions (mgr (fst run))))
     = [("WAR-123E4567", Some "ORD-1005", Some "Confirmed")].
Proof. vm_compute. repeat split; reflexivity. Qed.

(** * Further properties of the code *)

From Stdlib Require Import Lqa.
From Stdlib Require Import Sorted.
From stdpp Require sorting.

(** ** Product Finder: what a recommendation holds *)

Lemma insert_by_perm (key : product -> Q * Q) (x : product) (l : list product) :
  insert_by key x l ≡ₚ x :: l.
Proof.
  induction l as [|y l IH]; simpl; [reflexivity|].
  destruct (key_le (key x) (key y)); [reflexivity|].
  rewrite IH. apply perm_swap.
Qed.

(* ranking neither drops nor duplicates a candidate *)
Lemma sort_by_perm (key : product -> Q * Q) (l : list product) :
  sort_by key l ≡ₚ l.
Proof.
  unfold sort_by. induction l as [|x l IH]; simpl; [reflexivity|].
  now rewrite insert_by_perm, IH.
Qed.

Lemma collect_spec (threshold : option Q) (bc : option constraints)
    (matches : list pmatch) (p : product) :
  p ∈ collect threshold bc matches ->
  exists m, m ∈ matches /\ _extract_product_data m = Some p
            /\ (0 < price p)%Z /\ filtered_out bc (price p) = false.
Proof.
  unfold collect. intros H. apply list_elem_of_omap in H as (m & Hm & Hf).
  exists m. split; [exact Hm|].
  repeat case_match; simplify_eq.
  all: match goal with
       | H : _ && _ = true |- _ =>
           apply andb_true_iff in H as [Hpos Hkeep];
           apply Z.ltb_lt in Hpos; apply negb_true_iff in Hkeep
       end; auto.
Qed.

(* the candidates a recommendation was cut from *)
Definition candidates (search : string -> option (list pmatch))
    (by_brand : string -> option (list pmatch)) (search_query : string)
    (bc : option constraints) (r : recommendations) : list product :=
  if metadata_search r then
    match detect_brand known_brands (lower search_query) with
    | Some b => collect None bc (default [] (by_brand b))
    | None => []
    end
  else collect (Some (1 # 10)%Q) bc (default [] (search search_query)).

Lemma recommendations_from (search : string -> option (list pmatch))
    (by_brand : string -> option (list pmatch)) (search_query : string)
    (bc : option constraints) (r : recommendations) :
  _get_product_recommendations search by_brand search_query bc = Some r ->
  let cs := candidates search by_brand search_query bc r in
  cs <> []
  /\ count r = length cs
  /\ exists sorted,
       sorted ≡ₚ cs
       /\ products r = firstn 6 sorted
       /\ sorted = sort_by (if metadata_search r then rank_key_metadata bc
                            else rank_key bc) cs.
Proof.
  unfold _get_product_recommendations, candidates. intros H. cbv zeta.
  assert (Hsem : match search search_query with
                 | Some matches => collect (Some (1 # 10)%Q) bc matches
                 | None => []
                 end
                 = collect (Some (1 # 10)%Q) bc (default [] (search search_query)))
    by now destruct (search search_query).
  rewrite Hsem in H. clear Hsem.
  destruct (collect (Some (1 # 10)%Q) bc (default [] (search search_query)))
    as [|p ps] eqn:Hc.
  - unfold _metadata_based_search in H.
    destruct (detect_brand known_brands (lower search_query)) as [b|]; [|discriminate].
    destruct (by_brand b) as [ms|]; [|discriminate].
    destruct (collect None bc ms) as [|q qs] eqn:Hm; [discriminate|].
    injection H as <-. simpl. rewrite Hm.
    split; [discriminate|]. split; [reflexivity|].
    eexists. split; [apply sort_by_perm|]. split; reflexivity.
  - injection H as <-. simpl.
    split; [discriminate|]. split; [reflexivity|].
    eexists. split; [apply sort_by_perm|]. split; reflexivity.
Qed.

Import PyStr Budget Finder Transaction Dialogue.
Local Open Scope string_scope.

Lemma candidates_spec (search : string -> option (list pmatch))
    (by_brand : string -> option (list pmatch)) (search_query : string)
    (bc : option constraints) (r : recommendations) (p : product) :
  p ∈ candidates search by_brand search_query bc r ->
  exists m, _extract_product_data m = Some p
            /\ (0 < price p)%Z /\ filtered_out bc (price p) = false.
Proof.
  unfold candidates. intros H.
  destruct (metadata_search r).
  - destruct (detect_brand _ _); [|now apply not_elem_of_nil in H].
    apply collect_spec in H as (m & _ & ?). eauto.
  - apply collect_spec in H as (m & _ & ?). eauto.
Qed.

Lemma returned_is_candidate (search : string -> option (list pmatch))
    (by_brand : string -> option (list pmatch)) (search_query : string)
    (bc : option constraints) (r : recommendations) (p : product) :
  _get_product_recommendations search by_brand search_query bc = Some r ->
  p ∈ products r -> p ∈ candidates search by_brand search_query bc r.
Proof.
  intros H Hp.
  destruct (recommendations_from _ _ _ _ _ H) as (_ & _ & sorted & Hperm & Hr & _).
  rewrite Hr in Hp. rewrite <- Hperm.
  apply elem_of_take in Hp as (i & Hi & _). eapply list_elem_of_lookup_2, Hi.
Qed.



(** X2: every product of a recommendation has a positive price and passes
    the budget it was asked under: for kind below its price is at most the
    upper bound, for kind above at least the lower bound, for kind around
    between 0.8 times the lower and 1.2 times the upper bound. *)
Theorem recommendation_within_budget (search : string -> option (list pmatch))
    (by_brand : string -> option (list pmatch)) (search_query : string)
    (bc : option constraints) (r : recommendations) (p : product) :
  _get_product_recommendations search by_brand search_query bc = Some r ->
  In p (products r) ->
  (0 < price p)%Z
  /\ forall c, bc = Some c ->
       match constraint_type c with
       | below =>
           forall hi, max_price_jpy c = Fin hi -> (inject_Z (price p) <= hi)%Q
       | above => (min_price_jpy c <= inject_Z (price p))%Q
       | around =>
           (min_price_jpy c * (8 # 10) <= inject_Z (price p))%Q
           /\ forall hi, max_price_jpy c = Fin hi ->
                         (inject_Z (price p) <= hi * (12 # 10))%Q
       end.
Proof.
  intros H Hp. apply list_elem_of_In in Hp.
  apply (returned_is_candidate _ _ _ _ _ _ H) in Hp.
  apply candidates_spec in Hp as (m & _ & Hpos & Hkeep).
  split; [exact Hpos|]. intros c ->. unfold filtered_out in Hkeep.
  destruct (constraint_type c).
  - intros hi Hhi. rewrite Hhi in Hkeep. simpl in Hkeep.
    now apply Qlt_bool_false_iff.
  - now apply Qlt_bool_false_iff.
  - apply orb_false_iff in Hkeep as [Hlo Hup]. split.
    + now apply Qlt_bool_false_iff.
    + intros hi Hhi. rewrite Hhi in Hup. simpl in Hup.
      now apply Qlt_bool_false_iff.
Qed.

Lemma recommendation_within_budget_witness :
  let search := fun _ : string => Some Demo.catalogue in
  let by_brand := fun _ : string => @None (list pmatch) in
  let bc := _parse_budget_constraints "under 110000" in
  exists r p,
    _get_product_recommendations search by_brand "dell" bc = Some r
    /\ In p (products r)
    /\ (0 < price p)%Z
    /\ forall c, bc = Some c ->
         match constraint_type c with
         | below =>
             forall hi, max_price_jpy c = Fin hi -> (inject_Z (price p) <= hi)%Q
         | above => (min_price_jpy c <= inject_Z (price p))%Q
         | around =>
             (min_price_jpy c * (8 # 10) <= inject_Z (price p))%Q
             /\ forall hi, max_price_jpy c = Fin hi ->
                           (inject_Z (price p) <= hi * (12 # 10))%Q
         end.
Proof.
  eexists _, _. split; [vm_compute; reflexivity|].
  split; [left; reflexivity|].
  eapply (recommendation_within_budget (fun _ => Some Demo.catalogue)
            (fun _ => None) "dell" (_parse_budget_constraints "under 110000")).
  - vm_compute. reflexivity.
  - left. reflexivity.
Defined.

(** ** Product Finder: ranking *)

Lemma Qlt_bool_true_iff (a b : Q) : Qlt_bool a b = true <-> (a < b)%Q.
Proof.
  unfold Qlt_bool. rewrite negb_true_iff. split.
  - intros H. apply Qnot_le_lt. intros Hle.
    apply Qle_bool_iff in Hle. congruence.
  - intros H. destruct (Qle_bool b a) eqn:E; [|reflexivity].
    apply Qle_bool_iff in E. lra.
Qed.

Lemma key_le_spec (a b : Q * Q) :
  key_le a b = true
  <-> (fst a < fst b)%Q \/ ((fst a == fst b)%Q /\ (snd a <= snd b)%Q).
Proof.
  unfold key_le.
  rewrite orb_true_iff, andb_true_iff, Qlt_bool_true_iff, Qeq_bool_iff,
    Qle_bool_iff. reflexivity.
Qed.

Lemma key_le_total (a b : Q * Q) : key_le a b = false -> key_le b a = true.
Proof.
  intros H. apply key_le_spec.
  assert (Hn : ~ ((fst a < fst b)%Q \/ ((fst a == fst b)%Q /\ (snd a <= snd b)%Q))).
  { intros Hc. apply key_le_spec in Hc. congruence. }
  destruct (Qlt_le_dec (fst b) (fst a)) as [Hlt|Hle]; [now left|].
  right. split.
  - destruct (Qlt_le_dec (fst a) (fst b)); [exfalso; apply Hn; now left|lra].
  - destruct (Qlt_le_dec (snd a) (snd b)); [|assumption].
    exfalso. apply Hn. right. split; lra.
Qed.

Lemma key_le_trans (a b c : Q * Q) :
  key_le a b = true -> key_le b c = true -> key_le a c = true.
Proof.
  rewrite !key_le_spec. intros [H1|[H1 H1']] [H2|[H2 H2']].
  - left; lra.
  - left; lra.
  - left; lra.
  - right; split; lra.
Qed.

(* the order a sort key puts on products *)
Definition ranked_before (key : product -> Q * Q) (x y : product) : Prop :=
  key_le (key x) (key y) = true.

Lemma insert_by_sorted (key : product -> Q * Q) (x : product) (l : list product) :
  StronglySorted (ranked_before key) l ->
  StronglySorted (ranked_before key) (insert_by key x l).
Proof.
  induction l as [|y l IH]; intros Hs; simpl.
  - repeat constructor.
  - apply StronglySorted_inv in Hs as [Hl Hy].
    destruct (key_le (key x) (key y)) eqn:E.
    + constructor; [now constructor|].
      constructor; [exact E|].
      eapply Forall_impl; [exact Hy|]. intros z Hz.
      unfold ranked_before in *. eapply key_le_trans; eassumption.
    + constructor; [now apply IH|].
      rewrite (insert_by_perm key x l). constructor; [|exact Hy].
      now apply key_le_total.
Qed.

Lemma sort_by_sorted (key : product -> Q * Q) (l : list product) :
  StronglySorted (ranked_before key) (sort_by key l).
Proof.
  unfold sort_by. induction l as [|x l IH]; simpl; [constructor|].
  now apply insert_by_sorted.
Qed.

Lemma StronglySorted_weaken {A} (R R' : A -> A -> Prop) (l : list A) :
  (forall x y, R x y -> R' x y) -> StronglySorted R l -> StronglySorted R' l.
Proof.
  intros Himp. induction 1 as [|x l Hs IH Hall]; constructor; [exact IH|].
  eapply Forall_impl; [exact Hall|]. auto.
Qed.

Lemma ranked_first (key : product -> Q * Q) (x y : product) :
  ranked_before key x y -> (fst (key x) <= fst (key y))%Q.
Proof.
  unfold ranked_before. rewrite key_le_spec. intros [H|[H _]]; lra.
Qed.

(** X3: the products of a recommendation come in rank order, ties on the
    first criterion broken by the second: highest price first under a
    budget of kind below, lowest price first for kind above, smallest
    distance to the target first for kind around; without a budget the
    semantic search gives the highest score first and the metadata search
    the highest rating first. *)
Theorem recommendation_is_ranked (search : string -> option (list pmatch))
    (by_brand : string -> option (list pmatch)) (search_query : string)
    (bc : option constraints) (r : recommendations) :
  _get_product_recommendations search by_brand search_query bc = Some r ->
  StronglySorted
    (ranked_before (if metadata_search r then rank_key_metadata bc
                    else rank_key bc)) (products r)
  /\ (forall c, bc = Some c ->
      match constraint_type c with
      | below => StronglySorted (fun x y => (price y <= price x)%Z) (products r)
      | above => StronglySorted (fun x y => (price x <= price y)%Z) (products r)
      | around =>
          StronglySorted
            (fun x y =>
               (Qabs (inject_Z (price x) - target_price_jpy c)
                <= Qabs (inject_Z (price y) - target_price_jpy c))%Q)
            (products r)
      end)
  /\ (bc = None ->
      if metadata_search r
      then StronglySorted (fun x y => (rating y <= rating x)%Q) (products r)
      else StronglySorted (fun x y => (score y <= score x)%Q) (products r)).
Proof.
  intros H.
  destruct (recommendations_from _ _ _ _ _ H) as (_ & _ & sorted & _ & Hr & Hs).
  assert (Hsorted : StronglySorted
            (ranked_before (if metadata_search r then rank_key_metadata bc
                            else rank_key bc)) (products r)).
  { rewrite Hr. apply (sorting.StronglySorted_app_1_l _ _ (skipn 6 sorted)).
    rewrite firstn_skipn, Hs. apply sort_by_sorted. }
  split; [exact Hsorted|]. split.
  - intros c ->.
    assert (Hk : StronglySorted (ranked_before (rank_key (Some c))) (products r))
      by now destruct (metadata_search r).
    destruct (constraint_type c) eqn:Hc;
      (eapply StronglySorted_weaken; [|exact Hk]);
      intros x y Hxy; apply ranked_first in Hxy;
      unfold rank_key in Hxy; rewrite Hc in Hxy; cbn [fst] in Hxy.
    + rewrite Zle_Qle. lra.
    + rewrite Zle_Qle. lra.
    + exact Hxy.
  - intros ->. destruct (metadata_search r);
      (eapply StronglySorted_weaken; [|exact Hsorted]);
      intros x y Hxy; apply ranked_first in Hxy; cbn [fst rank_key rank_key_metadata] in Hxy;
      lra.
Qed.

Lemma recommendation_is_ranked_witness :
  let search := fun _ : string => Some Demo.catalogue in
  let by_brand := fun _ : string => @None (list pmatch) in
  let bc := _parse_budget_constraints "under 200000" in
  exists r,
    _get_product_recommendations search by_brand "dell" bc = Some r
    /\ map price (products r) = [130000%Z; 100000%Z]
    /\ StronglySorted
         (ranked_before (if metadata_search r then rank_key_metadata bc
                         else rank_key bc)) (products r).
Proof.
  eexists. split; [vm_compute; reflexivity|]. split; [reflexivity|].
  apply (recommendation_is_ranked (fun _ => Some Demo.catalogue) (fun _ => None)
           "dell" (_parse_budget_constraints "under 200000")).
  vm_compute. reflexivity.
Defined.

(** ** Product Finder: price conversion *)




(** ** Budget parser: amounts *)

Lemma digits_value_nonneg (s : string) (acc : Z) :
  (0 <= acc)%Z -> (0 <= digits_value acc s)%Z.
Proof.
  revert acc. induction s as [|c t IH]; intros acc H; simpl; [exact H|].
  apply IH. lia.
Qed.

Lemma float_of_decimal_nonneg (s : string) : (0 <= float_of_decimal s)%Q.
Proof.
  unfold float_of_decimal. destruct (span is_digit s) as [ip rest].
  assert (Hip : (0 <= inject_Z (digits_value 0 ip))%Q).
  { change 0%Q with (inject_Z 0). rewrite <- Zle_Qle.
    now apply digits_value_nonneg. }
  destruct rest as [|c fp]; [exact Hip|].
  assert (Hfp : (0 <= inject_Z (digits_value 0 fp))%Q).
  { change 0%Q with (inject_Z 0). rewrite <- Zle_Qle.
    now apply digits_value_nonneg. }
  assert (Hden : (0 < inject_Z (10 ^ Z.of_nat (String.length fp)))%Q).
  { change 0%Q with (inject_Z 0). rewrite <- Zlt_Qlt.
    apply Z.pow_pos_nonneg; lia. }
  assert (Hq : (0 <= inject_Z (digits_value 0 fp)
                     / inject_Z (10 ^ Z.of_nat (String.length fp)))%Q).
  { apply Qle_shift_div_l; [exact Hden|]. lra. }
  lra.
Qed.

Lemma first_digits_some (s : string) :
  has_digit s = true -> exists d, first_digits s = Some d.
Proof.
  induction s as [|c t IH]; simpl; [discriminate|].
  destruct (is_digit c); [eauto|]. exact IH.
Qed.

Lemma extract_amount_some (s : string) :
  has_digit s = true ->
  exists amount, extract_amount s = Some amount /\ (0 <= amount)%Q.
Proof.
  intros H. unfold extract_amount.
  destruct (search_k s) as [g|].
  - eexists. split; [reflexivity|].
    pose proof (float_of_decimal_nonneg g). lra.
  - destruct (first_digits_some s H) as [d ->].
    eexists. split; [reflexivity|]. apply float_of_decimal_nonneg.
Qed.

(** X5: a phrase that contains a digit always yields a constraint built
    from a non-negative amount, never null, and the kind follows the
    keyword priority: a below-keyword wins over an above-keyword, which
    wins over an around-keyword, and a number without keyword is an upper
    bound. *)
Theorem parse_budget_with_digit (budget_text : string) :
  has_digit budget_text = true ->
  exists amount bc,
    (0 <= amount)%Q
    /\ _parse_budget_constraints budget_text = Some bc
    /\ if any_in below_words (lower budget_text)
       then constraint_type bc = below /\ max_price_jpy bc = Fin amount
            /\ min_price_jpy bc = 0%Q
       else if any_in above_words (lower budget_text)
       then constraint_type bc = above /\ min_price_jpy bc = amount
            /\ max_price_jpy bc = Inf
       else if any_in around_words (lower budget_text)
       then constraint_type bc = around /\ target_price_jpy bc = amount
            /\ min_price_jpy bc = (amount * (8 # 10))%Q
            /\ max_price_jpy bc = Fin (amount * (12 # 10))%Q
       else constraint_type bc = below /\ max_price_jpy bc = Fin amount
            /\ min_price_jpy bc = 0%Q.
Proof.
  intros H. unfold _parse_budget_constraints.
  assert (Hne : is_empty budget_text = false) by now destruct budget_text.
  rewrite Hne.
  destruct (extract_amount_some (lower budget_text)) as (amount & -> & Hpos).
  { now rewrite has_digit_lower. }
  exists amount.
  destruct (any_in below_words _); [eexists; repeat split; assumption|].
  destruct (any_in above_words _); [eexists; repeat split; assumption|].
  destruct (any_in around_words _); eexists; repeat split; assumption.
Qed.

Lemma parse_budget_with_digit_witness :
  has_digit "over 30000 but at most 50000" = true
  /\ exists amount bc,
       (0 <= amount)%Q
       /\ _parse_budget_constraints "over 30000 but at most 50000" = Some bc
       /\ if any_in below_words (lower "over 30000 but at most 50000")
          then constraint_type bc = below /\ max_price_jpy bc = Fin amount
               /\ min_price_jpy bc = 0%Q
          else if any_in above_words (lower "over 30000 but at most 50000")
          then constraint_type bc = above /\ min_price_jpy bc = amount
               /\ max_price_jpy bc = Inf
          else if any_in around_words (lower "over 30000 but at most 50000")
          then constraint_type bc = around /\ target_price_jpy bc = amount
               /\ min_price_jpy bc = (amount * (8 # 10))%Q
               /\ max_price_jpy bc = Fin (amount * (12 # 10))%Q
          else constraint_type bc = below /\ max_price_jpy bc = Fin amount
               /\ min_price_jpy bc = 0%Q.
Proof.
  split; [reflexivity|].
  exact (parse_budget_with_digit "over 30000 but at most 50000" eq_refl).
Defined.



Fixpoint all_chars (p : ascii -> bool) (s : string) : bool :=
  match s with
  | EmptyString => true
  | String c t => p c && all_chars p t
  end.

Definition digit_or_k (c : ascii) : bool := is_digit c || Ascii.eqb c char_k.

Lemma append_cons (c : ascii) (s t : string) :
  String c s ++ t = String c (s ++ t).
Proof. reflexivity. Qed.

Lemma append_nil (t : string) : EmptyString ++ t = t.
Proof. reflexivity. Qed.

Lemma all_chars_app (p : ascii -> bool) (s t : string) :
  all_chars p (s ++ t) = all_chars p s && all_chars p t.
Proof.
  induction s as [|c s IH]; rewrite ?append_cons, ?append_nil; simpl;
    [reflexivity|].
  now rewrite IH, andb_assoc.
Qed.

Lemma all_chars_weaken (p q : ascii -> bool) (s : string) :
  (forall c, p c = true -> q c = true) ->
  all_chars p s = true -> all_chars q s = true.
Proof.
  intros Hpq. induction s as [|c s IH]; simpl; [reflexivity|].
  intros H. apply andb_true_iff in H as [Hc Hs]. now rewrite (Hpq _ Hc), IH.
Qed.

Lemma span_all (p : ascii -> bool) (d rest : string) :
  all_chars p d = true ->
  match rest with String c _ => p c = false | EmptyString => True end ->
  span p (d ++ rest) = (d, rest).
Proof.
  intros Hd Hr. induction d as [|c d IH];
    rewrite ?append_cons, ?append_nil; simpl in *.
  - destruct rest as [|c r]; [reflexivity|]. simpl. now rewrite Hr.
  - apply andb_true_iff in Hd as [Hc Hd]. now rewrite Hc, IH.
Qed.

Lemma app_empty_r (s : string) : s ++ EmptyString = s.
Proof. induction s; rewrite ?append_cons, ?append_nil; congruence. Qed.

Lemma span_whole (p : ascii -> bool) (d : string) :
  all_chars p d = true -> span p d = (d, EmptyString).
Proof.
  intros H. rewrite <- (app_empty_r d) at 1. exact (span_all p d EmptyString H I).
Qed.

Lemma lower_digits (d : string) : all_chars is_digit d = true -> lower d = d.
Proof.
  unfold lower. induction d as [|c d IH]; simpl; [reflexivity|].
  intros H. apply andb_true_iff in H as [Hc Hd]. rewrite IH by assumption.
  f_equal. unfold lower_char.
  destruct c as [[] [] [] [] [] [] [] []]; try reflexivity; discriminate Hc.
Qed.

Lemma lower_app (s t : string) : lower (s ++ t) = lower s ++ lower t.
Proof.
  unfold lower. induction s; rewrite ?append_cons, ?append_nil; simpl;
    rewrite ?append_cons, ?append_nil; congruence.
Qed.

Lemma float_of_digits (d : string) :
  all_chars is_digit d = true ->
  float_of_decimal d = inject_Z (digits_value 0 d).
Proof.
  intros H. unfold float_of_decimal. now rewrite (span_whole _ _ H).
Qed.

(* a keyword that starts with a letter other than k does not occur in a
   text made of digits and the letter k *)
Lemma keyword_absent (w s : string) :
  match w with
  | String a _ => digit_or_k a = false
  | EmptyString => False
  end ->
  all_chars digit_or_k s = true -> contains w s = false.
Proof.
  destruct w as [|a w]; [tauto|]. intros Ha.
  induction s as [|c s IH]; intros Hs; simpl; [reflexivity|].
  apply andb_true_iff in Hs as [Hc Hs]. rewrite (IH Hs), orb_false_r.
  destruct (Ascii.eqb_spec a c) as [->|]; [congruence|reflexivity].
Qed.

Lemma no_keywords (s : string) :
  all_chars digit_or_k s = true ->
  any_in below_words s = false /\ any_in above_words s = false
  /\ any_in around_words s = false.
Proof.
  intros H. unfold any_in, below_words, above_words, around_words.
  cbn [existsb]. rewrite !(keyword_absent _ s) by (reflexivity || exact H).
  repeat split.
Qed.

Lemma search_k_digits (d : string) :
  all_chars is_digit d = true -> search_k d = None.
Proof.
  induction d as [|c d IH]; intros H; [reflexivity|].
  pose proof H as H'. simpl in H'. apply andb_true_iff in H' as [_ Hd].
  simpl search_k. rewrite (IH Hd).
  unfold match_k_at. rewrite (span_whole _ _ H). reflexivity.
Qed.

Lemma first_digits_digits (d : string) :
  d <> EmptyString -> all_chars is_digit d = true -> first_digits d = Some d.
Proof.
  destruct d as [|c d]; [congruence|]. intros _ H.
  pose proof H as H'. simpl in H'. apply andb_true_iff in H' as [Hc _].
  unfold first_digits. rewrite Hc. fold first_digits.
  now rewrite (span_whole _ _ H).
Qed.

Lemma search_k_suffixed (d : string) :
  d <> EmptyString -> all_chars is_digit d = true ->
  search_k (d ++ "k") = Some d.
Proof.
  intros Hne H.
  assert (Hm : match_k_at (d ++ "k") = Some d).
  { unfold match_k_at. rewrite (span_all is_digit d "k" H eq_refl).
    destruct d; [congruence|reflexivity]. }
  destruct d as [|c d]; [congruence|]. simpl search_k.
  change (String c (d ++ "k")) with (String c d ++ "k"). now rewrite Hm.
Qed.

(* the upper bound put on an amount without keyword *)
Definition upper_bound_of (amount : Q) : constraints :=
  {| min_price := None; max_price := Some (amount * yen_to_inr_rate)%Q;
     constraint_type := below; max_price_jpy := Fin amount;
     min_price_jpy := 0%Q; target_price_jpy := 0%Q |}.

(** X7: a bare number is an upper bound of that many yen, and the same
    number followed by k or K an upper bound of a thousand times as
    many. *)
Theorem parse_budget_number_and_k (d : string) :
  d <> EmptyString ->
  all_chars is_digit d = true ->
  let n := inject_Z (digits_value 0 d) in
  _parse_budget_constraints d = Some (upper_bound_of n)
  /\ _parse_budget_constraints (d ++ "k") = Some (upper_bound_of (n * 1000)%Q)
  /\ _parse_budget_constraints (d ++ "K") = Some (upper_bound_of (n * 1000)%Q).
Proof.
  intros Hne Hd. cbv zeta.
  assert (Hdk : all_chars digit_or_k d = true).
  { eapply all_chars_weaken; [|exact Hd]. intros c Hc.
    unfold digit_or_k. now rewrite Hc. }
  assert (Hk : all_chars digit_or_k (d ++ "k") = true)
    by now rewrite all_chars_app, Hdk.
  assert (Hlk : lower (d ++ "k") = d ++ "k")
    by now rewrite lower_app, lower_digits.
  assert (HlK : lower (d ++ "K") = d ++ "k")
    by now rewrite lower_app, lower_digits.
  assert (Hparse_k : forall text, is_empty text = false -> lower text = d ++ "k" ->
            _parse_budget_constraints text
            = Some (upper_bound_of (inject_Z (digits_value 0 d) * 1000)%Q)).
  { intros text He Hl. unfold _parse_budget_constraints. rewrite He, Hl.
    unfold extract_amount. rewrite (search_k_suffixed d Hne Hd).
    rewrite (float_of_digits d Hd).
    destruct (no_keywords _ Hk) as (-> & -> & ->). reflexivity. }
  repeat split.
  - unfold _parse_budget_constraints.
    assert (He : is_empty d = false) by now destruct d.
    rewrite He, (lower_digits d Hd). unfold extract_amount.
    rewrite (search_k_digits d Hd), (first_digits_digits d Hne Hd).
    rewrite (float_of_digits d Hd).
    destruct (no_keywords _ Hdk) as (-> & -> & ->). reflexivity.
  - apply Hparse_k; [now destruct d|exact Hlk].
  - apply Hparse_k; [now destruct d|exact HlK].
Qed.

Lemma parse_budget_number_and_k_witness :
  "50" <> EmptyString
  /\ all_chars is_digit "50" = true
  /\ let n := inject_Z (digits_value 0 "50") in
     _parse_budget_constraints "50" = Some (upper_bound_of n)
     /\ _parse_budget_constraints ("50" ++ "k") = Some (upper_bound_of (n * 1000)%Q)
     /\ _parse_budget_constraints ("50" ++ "K") = Some (upper_bound_of (n * 1000)%Q).
Proof.
  split; [discriminate|]. split; [reflexivity|].
  apply (parse_budget_number_and_k "50"); [discriminate|reflexivity].
Defined.

(** ** Routing *)

Lemma any_in_app (ws1 ws2 : list string) (text : string) :
  any_in (ws1 ++ ws2)%list text = any_in ws1 text || any_in ws2 text.
Proof. unfold any_in. apply existsb_app. Qed.

(** X8: the comparison branch of the if / elif chain of [handle_message]
    is dead.  The chain is reached only by a message that
    [_should_use_gpt_directly] rejects, and such a message contains none of
    the comparison words, so the chain never selects
    [_handle_comparison_request]. *)
Theorem comparison_route_is_dead (c : gmap string value)
    (intent user_message : string) :
  _should_use_gpt_directly user_message = false ->
  dispatch c intent user_message <> RComparison.
Proof.
  unfold _should_use_gpt_directly. intros H.
  apply orb_false_iff in H as [H _]. apply orb_false_iff in H as [H _].
  apply orb_false_iff in H as [_ H]. rewrite any_in_app in H.
  apply orb_false_iff in H as [H _].
  unfold dispatch. cbv zeta. rewrite H.
  repeat case_match; discriminate.
Qed.

Lemma comparison_route_is_dead_witness :
  _should_use_gpt_directly "show me my orders" = false
  /\ dispatch ∅ "order_status" "show me my orders" <> RComparison.
Proof.
  split; [vm_compute; reflexivity|].
  apply (comparison_route_is_dead ∅ "order_status" "show me my orders").
  vm_compute; reflexivity.
Defined.

(** ** Reasons *)

Lemma mem_spec (s : string) (words : list string) :
  mem s words = true <-> In s words.
Proof.
  unfold mem. rewrite existsb_exists. split.
  - intros (w & Hw & He). apply String.eqb_eq in He. now subst.
  - intros H. exists s. split; [exact H|apply String.eqb_refl].
Qed.

Lemma map_reason_cases (user_reason : string) (valid_reasons : list string) :
  In (_map_reason_response user_reason valid_reasons) valid_reasons
  \/ _map_reason_response user_reason valid_reasons = "Other".
Proof.
  unfold _map_reason_response. cbv zeta.
  destruct (List.find _ reason_mapping) as [km|] eqn:Hk.
  - apply find_some in Hk as [_ Hk]. apply andb_true_iff in Hk as [_ Hk].
    left. now apply mem_spec.
  - destruct (List.find _ valid_reasons) as [v|] eqn:Hv.
    + apply find_some in Hv as [Hv _]. now left.
    + now right.
Qed.

(** X9: whatever the user answers and whatever list of reasons is passed,
    [_map_reason_response] returns one of the listed reasons or the literal
    Other: free text never becomes the recorded reason. *)
Theorem map_reason_valid_or_other (user_reason : string)
    (valid_reasons : list string) :
  let reason := _map_reason_response user_reason valid_reasons in
  In reason valid_reasons \/ reason = "Other".
Proof. exact (map_reason_cases user_reason valid_reasons). Qed.




(** X11: at the reason step without an order snapshot in the context,
    [_handle_reason_response] asks for the order id again but changes no
    transaction key: the session stays at the reason step and is not moved
    to the order-id step. *)
Theorem reason_step_without_order_stays (E : collaborators)
    (c : gmap string value) (user_message : string)
    (entities : gmap string string) (k : string) :
  c !! "current_order" = None ->
  k ∈ transaction_keys ->
  fst (_handle_reason_response E c user_message entities) !! k = c !! k
  /\ exists r, snd (_handle_reason_response E c user_message entities) = Reply r.
Proof.
  intros Ho Hk. unfold _handle_reason_response. rewrite Ho.
  destruct (_handle_with_gpt E c _ "unknown" entities) as [c' r] eqn:Hg.
  cbn [fst snd]. split; [|now exists r].
  change c' with (fst (c', r)). rewrite <- Hg. apply handle_with_gpt_keeps.
  unfold transaction_keys in Hk. unfold purchase_cache_keys.
  repeat (apply elem_of_cons in Hk as [->|Hk]; [not_listed|]).
  now apply not_elem_of_nil in Hk.
Qed.

Lemma reason_step_without_order_stays_witness :
  let c : gmap string value :=
    {[ "awaiting_reason" := VBool true; "transaction_type" := VStr "return" ]} in
  fst (_handle_reason_response (Demo.services false) c "broken" ∅)
    !! "awaiting_reason" = c !! "awaiting_reason"
  /\ exists r, snd (_handle_reason_response (Demo.services false) c "broken" ∅)
               = Reply r.
Proof.
  apply (reason_step_without_order_stays (Demo.services false)
           {[ "awaiting_reason" := VBool true;
              "transaction_type" := VStr "return" ]} "broken" ∅
           "awaiting_reason").
  - reflexivity.
  - unfold transaction_keys. listed.
Defined.

(** ** Transaction identifiers *)

Definition is_lower_hex (c : ascii) : bool :=
  let n := nat_of_ascii c in is_digit c || ((97 <=? n)%nat && (n <=? 102)%nat).

Definition is_upper_hex (c : ascii) : bool :=
  let n := nat_of_ascii c in is_digit c || ((65 <=? n)%nat && (n <=? 70)%nat).

Lemma hex_char_lower (d : N) : (d < 16)%N -> is_lower_hex (hex_char d) = true.
Proof.
  intros H.
  assert (Hd : In d (map N.of_nat (seq 0 16))).
  { apply in_map_iff. exists (N.to_nat d). split; [lia|].
    apply in_seq. lia. }
  simpl in Hd.
  repeat (destruct Hd as [<-|Hd]; [reflexivity|]). destruct Hd.
Qed.

Lemma hex_digits_lower (k : nat) (n : N) (acc : string) :
  all_chars is_lower_hex acc = true ->
  all_chars is_lower_hex (hex_digits k n acc) = true.
Proof.
  revert n acc. induction k as [|k IH]; intros n acc H; simpl; [exact H|].
  apply IH. simpl. rewrite H, andb_true_r.
  apply hex_char_lower. apply N.mod_lt. discriminate.
Qed.

Lemma all_chars_take (p : ascii -> bool) (n : nat) (s : string) :
  all_chars p s = true -> all_chars p (take n s) = true.
Proof.
  revert s. induction n as [|n IH]; intros [|c s] H; simpl in *;
    try reflexivity.
  apply andb_true_iff in H as [Hc Hs]. now rewrite Hc, IH.
Qed.

Lemma upper_hex (s : string) :
  all_chars is_lower_hex s = true -> all_chars is_upper_hex (upper s) = true.
Proof.
  unfold upper. induction s as [|c s IH]; simpl; [reflexivity|].
  intros H. apply andb_true_iff in H as [Hc Hs]. rewrite (IH Hs), andb_true_r.
  clear -Hc. destruct c as [[] [] [] [] [] [] [] []];
    try reflexivity; discriminate Hc.
Qed.

(** X12: a transaction id is the prefix, a hyphen and a token of exactly
    eight characters, each a decimal digit or one of the capitals A to F,
    whatever value the identifier generator draws. *)
Theorem transaction_id_format (prefix : string) (u : N) :
  exists token,
    _generate_transaction_id prefix u = prefix ++ "-" ++ token
    /\ String.length token = 8%nat
    /\ all_chars is_upper_hex token = true.
Proof.
  exists (upper (take 8 (uuid_str u))). split; [reflexivity|].
  split; [apply transaction_token_length|].
  apply upper_hex. unfold uuid_str. cbv zeta.
  assert (H : String.length (take 8 (hex_digits 32 u EmptyString)) = 8%nat).
  { apply length_take. rewrite length_hex_digits. simpl. lia. }
  rewrite take_app by (rewrite H; lia).
  do 2 apply all_chars_take. now apply hex_digits_lower.
Qed.

(** ** Order identifiers *)

Lemma search_ord_some (seps : list nat) (optional : bool) (s m : string) :
  search_ord seps optional s = Some m ->
  exists t, match_ord_at seps optional t = Some m.
Proof.
  induction s as [|c s IH]; cbn [search_ord].
  - destruct (match_ord_at seps optional EmptyString) eqn:H; [|discriminate].
    intros [= <-]. now exists EmptyString.
  - destruct (match_ord_at seps optional (String c s)) eqn:H.
    + intros [= <-]. now exists (String c s).
    + exact IH.
Qed.

Lemma span_fst_all (p : ascii -> bool) (s : string) :
  all_chars p (fst (span p s)) = true.
Proof.
  induction s as [|c s IH]; simpl; [reflexivity|].
  destruct (p c) eqn:Hc; [|reflexivity].
  destruct (span p s) as [a b]. simpl in *. now rewrite Hc, IH.
Qed.

Lemma upper_of_lower_char (c : ascii) (l : ascii) :
  In l ["o"; "r"; "d"]%char ->
  Ascii.eqb l (lower_char c) = true -> upper_char c = upper_char l.
Proof.
  intros Hl H. apply Ascii.eqb_eq in H. subst l.
  destruct c as [[] [] [] [] [] [] [] []]; try reflexivity;
    exfalso; vm_compute in Hl; 
    repeat (destruct Hl as [Hl|Hl]; [discriminate Hl|]); exact Hl.
Qed.

Lemma upper_digits (d : string) : all_chars is_digit d = true -> upper d = d.
Proof.
  unfold upper. induction d as [|c d IH]; simpl; [reflexivity|].
  intros H. apply andb_true_iff in H as [Hc Hd]. rewrite IH by assumption.
  f_equal. unfold upper_char.
  destruct c as [[] [] [] [] [] [] [] []]; try reflexivity; discriminate Hc.
Qed.

Lemma replace_fuel_digits (fuel : nat) (a : ascii) (old new d : string) :
  is_digit a = false -> all_chars is_digit d = true ->
  replace_fuel fuel (String a old) new d = d.
Proof.
  intros Ha. revert d. induction fuel as [|fuel IH]; intros d Hd;
    [reflexivity|].
  destruct d as [|c d]; [reflexivity|]. simpl in Hd.
  apply andb_true_iff in Hd as [Hc Hd]. simpl.
  destruct (Ascii.eqb_spec a c) as [->|_]; [congruence|]. simpl.
  now rewrite IH.
Qed.

(* the three shapes the loose pattern matches: ORD in any case, an
   optional underscore or hyphen, digits *)
Lemma match_ord_at_shape (t m : string) :
  match_ord_at [95; 45]%nat true t = Some m ->
  exists a b c rest d,
    m = String a (String b (String c rest))
    /\ upper_char a = "O"%char /\ upper_char b = "R"%char
    /\ upper_char c = "D"%char
    /\ (rest = d \/ rest = String "_" d \/ rest = String "-" d)
    /\ is_empty d = false /\ all_chars is_digit d = true.
Proof.
  unfold match_ord_at.
  destruct t as [|a [|b [|c t]]];
    try (cbn [take lower smap startswith]; rewrite ?andb_false_r;
         discriminate).
  cbn [take lower smap startswith drop].
  destruct (Ascii.eqb "o" (lower_char a)) eqn:Ha; [|discriminate].
  destruct (Ascii.eqb "r" (lower_char b)) eqn:Hb; [|discriminate].
  destruct (Ascii.eqb "d" (lower_char c)) eqn:Hc; [|discriminate].
  cbn [andb].
  apply upper_of_lower_char in Ha; [|now left].
  apply upper_of_lower_char in Hb; [|now right; left].
  apply upper_of_lower_char in Hc; [|now right; right; left].
  rewrite !append_cons, !append_nil.
  assert (Hopt : forall r,
            (if is_empty (fst (span is_digit r)) then None
             else Some (String a (String b (String c (fst (span is_digit r))))))
            = Some m ->
            exists a b c rest d,
              m = String a (String b (String c rest))
              /\ upper_char a = "O"%char /\ upper_char b = "R"%char
              /\ upper_char c = "D"%char
              /\ (rest = d \/ rest = String "_" d \/ rest = String "-" d)
              /\ is_empty d = false /\ all_chars is_digit d = true).
  { intros r H. destruct (is_empty (fst (span is_digit r))) eqn:He;
      [discriminate|]. injection H as <-.
    exists a, b, c, (fst (span is_digit r)), (fst (span is_digit r)).
    repeat split; auto using span_fst_all. }
  destruct t as [|s r].
  { intros H. apply (Hopt EmptyString). exact H. }
  destruct (char_in [95; 45]%nat s) eqn:Hs.
  - destruct (is_empty (fst (span is_digit r))) eqn:He.
    + intros H. apply (Hopt (String s r)). exact H.
    + intros H. rewrite !append_cons, !append_nil in H. injection H as <-.
      exists a, b, c, (String s (fst (span is_digit r))), (fst (span is_digit r)).
      repeat split; auto using span_fst_all.
      unfold char_in in Hs. simpl in Hs.
      apply orb_true_iff in Hs as [Hs|Hs].
      * apply Nat.eqb_eq in Hs. right; left. f_equal.
        rewrite <- (ascii_nat_embedding s), Hs. reflexivity.
      * rewrite orb_false_r in Hs. apply Nat.eqb_eq in Hs. right; right.
        f_equal. rewrite <- (ascii_nat_embedding s), Hs. reflexivity.
  - intros H. apply (Hopt (String s r)). exact H.
Qed.

Lemma replace_skip (n : nat) (old new : string) (c : ascii) (t : string) :
  startswith old (String c t) = false ->
  replace_fuel (S n) old new (String c t)
  = String c (replace_fuel n old new t).
Proof. intros H. cbn [replace_fuel]. now rewrite H. Qed.

Lemma replace_hit (n : nat) (old new : string) (c : ascii) (t : string) :
  startswith old (String c t) = true ->
  replace_fuel (S n) old new (String c t)
  = new ++ replace_fuel n old new (drop (String.length old) (String c t)).
Proof. intros H. cbn [replace_fuel]. now rewrite H. Qed.

Definition ord_ (rest : string) : string :=
  String "O" (String "R" (String "D" rest)).

(* [order_id.upper().replace('_', '-')] followed by the repair of a
   missing hyphen, on the three shapes *)
Definition normalise (m : string) : string :=
  let order_id := replace "_" "-" m in
  if startswith "ORD-" order_id then order_id
  else replace "ORD" "ORD-" order_id.

Lemma normalise_bare (d : string) :
  is_empty d = false -> all_chars is_digit d = true ->
  normalise (ord_ d) = ord_ (String "-" d).
Proof.
  intros Hne Hd. destruct d as [|x d]; [discriminate|].
  pose proof Hd as Hxd. simpl in Hd. apply andb_true_iff in Hd as [Hx Hd].
  assert (Hdash : Ascii.eqb "-" x = false).
  { destruct (Ascii.eqb_spec "-" x) as [<-|_]; [discriminate Hx|reflexivity]. }
  unfold normalise, replace, ord_. cbn [String.length].
  rewrite (replace_skip _ "_" "-" "O") by reflexivity.
  rewrite (replace_skip _ "_" "-" "R") by reflexivity.
  rewrite (replace_skip _ "_" "-" "D") by reflexivity.
  rewrite (replace_fuel_digits _ "_" EmptyString "-" (String x d) eq_refl Hxd).
  cbv zeta.
  replace (startswith "ORD-" (String "O" (String "R" (String "D" (String x d)))))
    with false by (cbn [startswith]; now rewrite Hdash).
  cbn [String.length]. rewrite replace_hit by reflexivity. cbn [String.length drop].
  rewrite (replace_fuel_digits _ "O" "RD" "ORD-" (String x d) eq_refl Hxd).
  reflexivity.
Qed.

Lemma normalise_underscore (d : string) :
  all_chars is_digit d = true ->
  normalise (ord_ (String "_" d)) = ord_ (String "-" d).
Proof.
  intros Hd. unfold normalise, replace, ord_. cbn [String.length].
  rewrite (replace_skip _ "_" "-" "O") by reflexivity.
  rewrite (replace_skip _ "_" "-" "R") by reflexivity.
  rewrite (replace_skip _ "_" "-" "D") by reflexivity.
  rewrite replace_hit by reflexivity. cbn [String.length drop].
  rewrite (replace_fuel_digits _ "_" EmptyString "-" d eq_refl Hd).
  reflexivity.
Qed.

Lemma normalise_hyphen (d : string) :
  all_chars is_digit d = true ->
  normalise (ord_ (String "-" d)) = ord_ (String "-" d).
Proof.
  intros Hd. unfold normalise, replace, ord_. cbn [String.length].
  rewrite (replace_skip _ "_" "-" "O") by reflexivity.
  rewrite (replace_skip _ "_" "-" "R") by reflexivity.
  rewrite (replace_skip _ "_" "-" "D") by reflexivity.
  rewrite (replace_skip _ "_" "-" "-") by reflexivity.
  rewrite (replace_fuel_digits _ "_" EmptyString "-" d eq_refl Hd).
  reflexivity.
Qed.

(** X13: an order id found in a message by the loose pattern (ORD in any
    case, an optional underscore or hyphen, digits) is always normalised to
    ORD, one hyphen and the digits as written. *)
Theorem loose_order_id_is_normalised (s o : string) :
  search_order_id_loose s = Some o ->
  exists d, o = String "O" (String "R" (String "D" (String "-" d)))
            /\ is_empty d = false /\ all_chars is_digit d = true.
Proof.
  unfold search_order_id_loose.
  destruct (search_ord [95; 45]%nat true s) as [m|] eqn:Hm; [|discriminate].
  apply search_ord_some in Hm as [t Ht].
  apply match_ord_at_shape in Ht
    as (a & b & c & rest & d & -> & Ha & Hb & Hc & Hrest & Hne & Hd).
  intros [= <-]. exists d. split; [|now split].
  change (normalise (upper (String a (String b (String c rest))))
          = ord_ (String "-" d)).
  unfold upper. cbn [smap]. fold (upper rest). rewrite Ha, Hb, Hc.
  fold (ord_ (upper rest)).
  destruct Hrest as [->|[->| ->]].
  - rewrite (upper_digits d Hd). now apply normalise_bare.
  - unfold upper. cbn [smap]. fold (upper d). rewrite (upper_digits d Hd).
    now apply normalise_underscore.
  - unfold upper. cbn [smap]. fold (upper d). rewrite (upper_digits d Hd).
    now apply normalise_hyphen.
Qed.

Lemma loose_order_id_is_normalised_witness :
  search_order_id_loose "where is ord_1003 now" = Some "ORD-1003"
  /\ exists d, "ORD-1003" = String "O" (String "R" (String "D" (String "-" d)))
               /\ is_empty d = false /\ all_chars is_digit d = true.
Proof.
  split; [vm_compute; reflexivity|].
  apply (loose_order_id_is_normalised "where is ord_1003 now" "ORD-1003").
  vm_compute; reflexivity.
Defined.

(** ** The escalation offer *)









(** ** The transaction store and the conversation history *)








(* what one call adds to the conversation history *)
Lemma handle_message_history (E : collaborators) (m : manager)
    (user_message : string) (user : gmap string string)
    (initial_context : gmap string value) :
  let h' := conversation_history
              (fst (handle_message E m user_message user initial_context)) in
  if is_menu_command user_message then h' = conversation_history m
  else exists rest,
         h' = (conversation_history m ++ ("user", user_message) :: rest)%list
         /\ (length rest <= 1)%nat.
Proof.
  cbv zeta. unfold handle_message.
  destruct (is_menu_command user_message); [reflexivity|].
  cbn [escalation_pending].
  destruct (escalation_pending m).
  { exists []. unfold _handle_escalation_response.
    repeat case_match; simplify_eq; split; try reflexivity; simpl; lia. }
  cbn [with_escalation with_context with_transactions with_history
       context transactions user_data response_count escalation_offered
       escalation_pending conversation_history].
  destruct (_ && _).
  { exists []. split; [reflexivity|simpl; lia]. }
  destruct (routed _ _ _ _ _) as [[[c1 st1] x] direct].
  destruct x as [r| |]; [destruct direct|..];
    cbn [fst with_history conversation_history with_transactions with_context].
  - exists []. split; [reflexivity|simpl; lia].
  - exists [("assistant", response r)]. split; [|simpl; lia].
    now rewrite <- app_assoc.
  - exists []. split; [reflexivity|simpl; lia].
  - exists []. split; [reflexivity|simpl; lia].
Qed.

(** X16: the conversation history only grows.  A menu command leaves it
    as it is, although it resets the context and the counters; any other
    message is appended as a user entry, followed by at most one assistant
    entry. *)
Theorem history_is_append_only (E : collaborators) (m : manager)
    (user_message : string) (user : gmap string string)
    (initial_context : gmap string value) :
  let h' := conversation_history
              (fst (handle_message E m user_message user initial_context)) in
  if is_menu_command user_message then h' = conversation_history m
  else exists rest,
         h' = (conversation_history m ++ ("user", user_message) :: rest)%list
         /\ (length rest <= 1)%nat.
Proof. exact (handle_message_history E m user_message user initial_context). Qed.

(** ** Purchase flow *)

(** X17: [_handle_purchase_flow] always records the search query it
    built.  When it shows products, it caches exactly the products of the
    response, at most six, each with a positive price; when it shows none,
    the cache keeps whatever an earlier search had left. *)
Theorem purchase_flow_caches_what_it_shows (E : collaborators)
    (c : gmap string value) (user_message intent : string)
    (entities : gmap string string) :
  let c' := fst (_handle_purchase_flow E c user_message intent entities) in
  let r := snd (_handle_purchase_flow E c user_message intent entities) in
  c' !! "last_search_query" = Some (VStr (create_search_query E user_message))
  /\ match reply_products r with
     | [] => c' !! "current_products" = c !! "current_products"
     | ps => c' !! "current_products" = Some (VProducts ps)
             /\ (length ps <= 6)%nat
             /\ Forall (fun p => (0 < price p)%Z) ps
     end.
Proof.
  cbv zeta. unfold _handle_purchase_flow. cbv zeta.
  set (q := create_search_query E user_message).
  set (bc := match entities !! "max_price" with
             | Some budget_text => _parse_budget_constraints budget_text
             | None => None
             end).
  assert (Hnone : forall c0 : gmap string value,
            <["last_search_query" := VStr q]> c0 !! "current_products"
            = c0 !! "current_products")
    by (intros c0; now rewrite lookup_insert_ne).
  destruct (_get_product_recommendations _ _ q bc) as [r|] eqn:Hr.
  - destruct (products r) as [|p ps] eqn:Hps.
    + cbn [fst snd]. split; [apply lookup_insert_eq|].
      unfold _handle_no_products_with_gpt, plain. cbn [reply_products].
      apply Hnone.
    + cbn [fst snd with_products reply_products]. split.
      { rewrite lookup_insert_ne by discriminate. apply lookup_insert_eq. }
      split; [apply lookup_insert_eq|].
      destruct (recommendations_from _ _ _ _ _ Hr)
        as (_ & _ & sorted & _ & Hcut & _).
      split.
      * rewrite <- Hps, Hcut. apply firstn_le_length.
      * rewrite <- Hps. apply List.Forall_forall. intros x Hx.
        apply list_elem_of_In in Hx.
        apply (returned_is_candidate _ _ _ _ _ _ Hr) in Hx.
        now apply candidates_spec in Hx as (m & _ & Hpos & _).
  - cbn [fst snd]. split; [apply lookup_insert_eq|].
    unfold _handle_no_products_with_gpt, plain. cbn [reply_products].
    apply Hnone.
Qed.

(** ** Warranty: claim or policy *)

(** X18: a message that opens a warranty claim ([_handle_context_switching]
    looks for warranty claim, warranty request, file warranty or make
    warranty) is never taken for a policy inquiry, even when it also
    contains a policy keyword: each of the four phrases is a claim keyword
    of [_is_warranty_policy_inquiry]. *)
Theorem warranty_claim_is_not_policy_inquiry (user_message : string) :
  any_in warranty_queries (lower user_message) = true ->
  _is_warranty_policy_inquiry user_message = false.
Proof.
  intros H. apply any_in_spec in H as (w & Hw & Hc).
  unfold _is_warranty_policy_inquiry. cbv zeta.
  assert (Hclaim : any_in claim_keywords (lower user_message) = true).
  { apply any_in_spec. exists w. split; [|exact Hc].
    unfold warranty_queries in Hw. unfold claim_keywords. simpl in *.
    intuition. }
  rewrite Hclaim. apply andb_false_r.
Qed.

Lemma warranty_claim_is_not_policy_inquiry_witness :
  any_in warranty_queries (lower "File warranty under your policy") = true
  /\ any_in policy_keywords (lower "File warranty under your policy") = true
  /\ _is_warranty_policy_inquiry "File warranty under your policy" = false.
Proof.
  split; [vm_compute; reflexivity|]. split; [vm_compute; reflexivity|].
  apply (warranty_claim_is_not_policy_inquiry "File warranty under your policy").
  vm_compute; reflexivity.
Defined.

(** ** The order-id step *)

(** X19: at the order-id step, without an order-id entity: a message in
    which no order id is found leaves the step pending; a message with the
    id of an order that does not exist ends the step and records that id,
    although the response asks to try again. *)
Theorem order_id_step_retry (E : collaborators) (c : gmap string value)
    (user_message intent : string) (entities : gmap string string) :
  entity entities "order_id" = None ->
  let c' := fst (_handle_order_id_response E c user_message intent entities) in
  match search_order_id user_message with
  | None => c' !! "awaiting_order_id" = c !! "awaiting_order_id"
            /\ c' !! "current_order_id" = c !! "current_order_id"
  | Some m =>
      match get_order E (upper m) with
      | None => c' !! "awaiting_order_id" = Some (VBool false)
                /\ c' !! "current_order_id" = Some (VStr (upper m))
                /\ c' !! "transaction_type" = c !! "transaction_type"
      | Some o => c' !! "current_order" = Some (VOrder o)
      end
  end.
Proof.
  intros He. cbv zeta. unfold _handle_order_id_response. rewrite He.
  destruct (search_order_id user_message) as [m|].
  - destruct (get_order E (upper m)) as [o|].
    + destruct (is_type _ "warranty"); cbn [fst].
      * rewrite lookup_insert_ne by discriminate. apply lookup_insert_eq.
      * apply lookup_insert_eq.
    + rewrite !handle_with_gpt_keeps by (unfold purchase_cache_keys; not_listed).
      split; [apply lookup_insert_eq|]. split.
      * rewrite lookup_insert_ne by discriminate. apply lookup_insert_eq.
      * now rewrite !lookup_insert_ne by discriminate.
  - rewrite !handle_with_gpt_keeps by (unfold purchase_cache_keys; not_listed).
    now split.
Qed.

Lemma order_id_step_retry_witness :
  let c : gmap string value :=
    {[ "awaiting_order_id" := VBool true;
       "transaction_type" := VStr "return" ]} in
  let c' := fst (_handle_order_id_response (Demo.services false) c
                   "it is ORD-9999" "general_question" ∅) in
  c' !! "awaiting_order_id" = Some (VBool false)
  /\ c' !! "current_order_id" = Some (VStr "ORD-9999")
  /\ c' !! "transaction_type" = c !! "transaction_type".
Proof.
  exact (order_id_step_retry (Demo.services false)
           {[ "awaiting_order_id" := VBool true;
              "transaction_type" := VStr "return" ]}
           "it is ORD-9999" "general_question" ∅ eq_refl).
Defined.

(** * Helpers around the dialogue manager *)

(** ** Recent conversation history: [_get_recent_conversation_history] *)

(* one line of the transcript handed to the language model *)
Definition history_line (message : string * string) : string :=
  (if String.eqb (fst message) "user" then "User" else "Assistant")
  ++ ": " ++ snd message.

(* the loop over the reversed history: [count] lines taken so far,
   [limit] is twice [max_messages] *)
Fixpoint recent_scan (limit count : nat) (messages : list (string * string))
    (recent_messages : list string) : list string :=
  match messages with
  | [] => recent_messages
  | message :: rest =>
      if (limit <=? count)%nat then recent_messages
      else recent_scan limit (S count) rest
             (recent_messages ++ [history_line message])%list
  end.

Definition _get_recent_conversation_history (max_messages : nat)
    (conversation_history : list (string * string)) : string :=
  join nl (rev (recent_scan (max_messages * 2) 0 (rev conversation_history) [])).

Lemma recent_scan_spec (limit count : nat) (messages : list (string * string))
    (acc : list string) :
  recent_scan limit count messages acc
  = (acc ++ map history_line (firstn (limit - count) messages))%list.
Proof.
  revert count acc. induction messages as [|m rest IH]; intros count acc; simpl.
  - rewrite firstn_nil. simpl. now rewrite app_nil_r.
  - destruct (Nat.leb_spec limit count) as [Hle|Hlt].
    + replace (limit - count)%nat with 0%nat by lia. simpl.
      now rewrite app_nil_r.
    + rewrite IH. replace (limit - count)%nat with (S (limit - S count)) by lia.
      simpl. now rewrite <- app_assoc.
Qed.

(** X20: the transcript built by [_get_recent_conversation_history] is
    made of the last twice-[max_messages] entries of the history (all of
    them when there are fewer), in chronological order, one line each. *)
Theorem recent_history_is_the_tail (max_messages : nat)
    (conversation_history : list (string * string)) :
  _get_recent_conversation_history max_messages conversation_history
  = join nl (map history_line
               (skipn (length conversation_history - max_messages * 2)
                  conversation_history)).
Proof.
  unfold _get_recent_conversation_history. rewrite recent_scan_spec.
  rewrite Nat.sub_0_r. simpl. rewrite <- map_rev. do 2 f_equal.
  rewrite firstn_rev. apply rev_involutive.
Qed.

(** ** Metadata cleaning: [_clean_metadata] *)

(* a JSON value of a transaction record *)
Inductive jvalue :=
  | JNull
  | JStr (s : string)
  | JNum (q : Q)
  | JBool (b : bool).

Definition clean_value (key : string) (value : jvalue) : jvalue :=
  match value with
  | JNull =>
      if mem key ["product_id"; "tracking_number"; "username"; "email"]
      then JStr "N/A"
      else if mem key ["refund_amount"; "price"; "amount"] then JNum 0
      else if String.eqb key "status" then JStr "unknown"
      else JStr EmptyString
  | _ => value
  end.

(* the record as the list of its items, in insertion order *)
Definition _clean_metadata (metadata : list (string * jvalue))
  : list (string * jvalue) :=
  map (fun kv => (fst kv, clean_value (fst kv) (snd kv))) metadata.

Lemma clean_value_not_null (key : string) (value : jvalue) :
  clean_value key value <> JNull.
Proof. unfold clean_value. repeat case_match; discriminate. Qed.

Lemma clean_value_fixed (key : string) (value : jvalue) :
  value <> JNull -> clean_value key value = value.
Proof. now destruct value. Qed.

(** X21: [_clean_metadata] keeps the keys and their order, leaves every
    value other than null untouched, leaves no null behind, and cleaning a
    cleaned record changes nothing. *)
Theorem clean_metadata_removes_nulls (metadata : list (string * jvalue)) :
  map fst (_clean_metadata metadata) = map fst metadata
  /\ Forall (fun kv => snd kv <> JNull) (_clean_metadata metadata)
  /\ Forall2 (fun kv kv' => snd kv <> JNull -> kv' = kv)
       metadata (_clean_metadata metadata)
  /\ _clean_metadata (_clean_metadata metadata) = _clean_metadata metadata.
Proof.
  unfold _clean_metadata. repeat split.
  - rewrite map_map. reflexivity.
  - apply List.Forall_forall. intros kv Hkv.
    apply in_map_iff in Hkv as (x & <- & _). apply clean_value_not_null.
  - induction metadata as [|[k v] rest IH]; constructor; [|exact IH].
    cbn [fst snd]. intros Hv. now rewrite clean_value_fixed.
  - rewrite map_map. apply map_ext. intros [k v]. cbn [fst snd].
    now rewrite (clean_value_fixed k (clean_value k v))
      by apply clean_value_not_null.
Qed.

(** ** Numeric metadata: [_safe_float] of the product index *)

(* what a metadata field can hold: nothing, a text, a number (int, float
   or bool, finite) or any other object *)
Inductive raw :=
  | RNone
  | RStr (s : string)
  | RNum (q : Q)
  | ROther.

Fixpoint keep (p : ascii -> bool) (s : string) : string :=
  match s with
  | EmptyString => EmptyString
  | String c t => if p c then String c (keep p t) else keep p t
  end.

Definition digit_or_dot (c : ascii) : bool := is_digit c || Ascii.eqb c char_dot.

(* [float(text)] for a text of digits and dots: digits, with at most one
   dot, and at least one digit; [None] stands for ValueError *)
Definition float_of_text (s : string) : option Q :=
  let '(ip, rest) := span is_digit s in
  match rest with
  | EmptyString => if is_empty ip then None else Some (float_of_decimal s)
  | String c fp =>
      if Ascii.eqb c char_dot && all_chars is_digit fp
         && negb (is_empty ip && is_empty fp)
      then Some (float_of_decimal s) else None
  end.

Definition _safe_float (value : raw) (dflt : Q) : Q :=
  match value with
  | RNone => dflt
  | RStr s =>
      let value := keep digit_or_dot s in
      if is_empty value then dflt
      else match float_of_text value with
           | Some x => x
           | None => dflt
           end
  | RNum q => if Qeq_bool q 0 then dflt else q
  | ROther => dflt
  end.

Lemma keep_idempotent (p : ascii -> bool) (s : string) :
  keep p (keep p s) = keep p s.
Proof.
  induction s as [|c t IH]; simpl; [reflexivity|].
  destruct (p c) eqn:Hc; simpl; [|exact IH]. now rewrite Hc, IH.
Qed.

(** X22: on a text, [_safe_float] reads only the digits and dots: every
    other character, a minus sign or an exponent letter included, is
    dropped before the conversion, so the result is never negative unless
    the default is.  A number equal to zero is replaced by the default. *)
Theorem safe_float_reads_digits_and_dots (s : string) (dflt : Q) :
  (0 <= dflt)%Q ->
  (0 <= _safe_float (RStr s) dflt)%Q
  /\ _safe_float (RStr s) dflt = _safe_float (RStr (keep digit_or_dot s)) dflt
  /\ (forall c : ascii, digit_or_dot c = false ->
        _safe_float (RStr (String c s)) dflt = _safe_float (RStr s) dflt)
  /\ _safe_float (RNum 0) dflt = dflt.
Proof.
  intros Hd. repeat split.
  - unfold _safe_float. cbv zeta.
    destruct (is_empty _); [exact Hd|].
    unfold float_of_text.
    destruct (span is_digit (keep digit_or_dot s)) as [ip rest] eqn:Hs.
    destruct rest as [|c fp].
    + destruct (is_empty ip); [exact Hd|apply float_of_decimal_nonneg].
    + destruct (_ && _); [apply float_of_decimal_nonneg|exact Hd].
  - unfold _safe_float. cbv zeta. now rewrite keep_idempotent.
  - intros c Hc. unfold _safe_float. cbv zeta. cbn [keep]. now rewrite Hc.
Qed.

Lemma safe_float_reads_digits_and_dots_witness :
  (0 <= 4)%Q
  /\ _safe_float (RStr "-1,299.50 INR") 4 == (129950 # 100)
  /\ (0 <= _safe_float (RStr "-1,299.50 INR") 4)%Q.
Proof.
  split; [discriminate|]. split; [vm_compute; reflexivity|].
  apply (safe_float_reads_digits_and_dots "-1,299.50 INR" 4). discriminate.
Defined.

(** ** Keyword fallback of the language understanding: [_fallback_extraction] *)

Definition intent_map : list (list string * string) :=
  [(["hello"; "hi"; "hey"; "howdy"], "greeting");
   (["laptop"; "computer"; "buy"; "purchase"], "product_inquiry");
   (["order"; "status"; "track"; "where is"], "order_status");
   (["return"; "refund"; "send back"], "return_request");
   (["cancel"; "stop order"], "cancellation_request");
   (["warranty"; "broken"], "warranty_claim");
   (["compare"; "vs"; "which is better"], "product_comparison");
   (["color"; "colors"; "available colors"], "color_inquiry");
   (["bye"; "goodbye"; "thanks"], "goodbye");
   (["help"; "problem"; "issue"], "technical_support")].

Definition _fallback_extraction (user_message : string)
    (context : gmap string value) : string * gmap string string :=
  let message := lower user_message in
  match search_order_id message with
  | Some m => ("order_status", {[ "order_id" := upper m ]})
  | None =>
      match (if truthy (context !! "awaiting_order_id")
             then first_digits message else None) with
      | Some d => ("order_status", {[ "order_id" := "ORD-" ++ d ]})
      | None =>
          match List.find (fun ki => any_in (fst ki) message) intent_map with
          | Some ki => (snd ki, ∅)
          | None => ("general_question", ∅)
          end
      end
  end.

Lemma startswith_spec (p s : string) :
  startswith p s = true <-> exists r, s = p ++ r.
Proof.
  revert s. induction p as [|a p IH]; intros s.
  - split; [intros _; now exists s|reflexivity].
  - destruct s as [|b s].
    + split; [discriminate|]. intros [r Hr]. discriminate Hr.
    + cbn [startswith]. rewrite andb_true_iff, IH, Ascii.eqb_eq. split.
      * intros [-> [r ->]]. now exists r.
      * intros [r Hr]. rewrite append_cons in Hr. injection Hr as -> ->. eauto.
Qed.

Lemma contains_spec (needle hay : string) :
  contains needle hay = true <-> exists l r, hay = l ++ needle ++ r.
Proof.
  induction hay as [|c hay IH].
  - cbn [contains]. rewrite orb_false_r, startswith_spec. split.
    + intros [r Hr]. now exists EmptyString, r.
    + intros [[|x l] [r Hr]]; [rewrite append_nil in Hr; eauto|].
      rewrite append_cons in Hr. discriminate Hr.
  - cbn [contains]. rewrite orb_true_iff, IH, startswith_spec. split.
    + intros [[r Hr]|(l & r & ->)].
      * now exists EmptyString, r.
      * now exists (String c l), r.
    + intros [[|x l] [r Hr]].
      * left. rewrite append_nil in Hr. eauto.
      * right. rewrite append_cons in Hr. injection Hr as -> ->. eauto.
Qed.

Lemma append_assoc (a b c : string) : (a ++ b) ++ c = a ++ (b ++ c).
Proof.
  induction a as [|x a IH]; [reflexivity|].
  rewrite !append_cons. now rewrite IH.
Qed.

Lemma contains_trans (a b s : string) :
  contains a b = true -> contains b s = true -> contains a s = true.
Proof.
  rewrite !contains_spec. intros (l1 & r1 & ->) (l2 & r2 & ->).
  exists (l2 ++ l1), (r1 ++ r2). now rewrite !append_assoc.
Qed.

(** X23: the keyword rules of [_fallback_extraction] are tried in order
    and a keyword matches anywhere inside the message, so two keywords
    can never decide: a message containing stop order contains order, and
    one containing which is better contains hi.  Such a message is
    classified as a greeting, a product inquiry or an order-status
    request, never as a cancellation or a comparison. *)
Theorem fallback_keywords_shadowed (user_message : string)
    (context : gmap string value) :
  contains "stop order" (lower user_message) = true
  \/ contains "which is better" (lower user_message) = true ->
  In (fst (_fallback_extraction user_message context))
     ["greeting"; "product_inquiry"; "order_status"].
Proof.
  intros H. unfold _fallback_extraction. cbv zeta.
  destruct (search_order_id _); [cbn; tauto|].
  destruct (if truthy _ then _ else _); [cbn; tauto|].
  unfold intent_map. cbn [List.find fst snd].
  destruct (any_in ["hello"; "hi"; "hey"; "howdy"] (lower user_message))
    eqn:H1; [cbn; tauto|].
  destruct (any_in ["laptop"; "computer"; "buy"; "purchase"] (lower user_message));
    [cbn; tauto|].
  destruct H as [H|H].
  - assert (H3 : any_in ["order"; "status"; "track"; "where is"]
                   (lower user_message) = true).
    { apply any_in_spec. exists "order". split; [now left|].
      now apply (contains_trans "order" "stop order"). }
    rewrite H3. cbn; tauto.
  - exfalso. assert (Hhi : any_in ["hello"; "hi"; "hey"; "howdy"]
                             (lower user_message) = true).
    { apply any_in_spec. exists "hi". split; [right; now left|].
      now apply (contains_trans "hi" "which is better"). }
    congruence.
Qed.

Lemma fallback_keywords_shadowed_witness :
  contains "stop order" (lower "Please stop order 12") = true
  /\ fst (_fallback_extraction "Please stop order 12" ∅) = "order_status"
  /\ In (fst (_fallback_extraction "Please stop order 12" ∅))
        ["greeting"; "product_inquiry"; "order_status"].
Proof.
  split; [vm_compute; reflexivity|]. split; [vm_compute; reflexivity|].
  apply (fallback_keywords_shadowed "Please stop order 12" ∅).
  left. vm_compute. reflexivity.
Defined.

(** ** One manager for every connection *)






(** ** Substring matching: entries that cannot decide *)

(** X25: brands are matched as substrings in list order, and redmi
    stands before redmibook in both brand lists: the brand detection of
    [_metadata_based_search] and of [_understand_with_gpt] never reports
    redmibook, a text naming it is reported as redmi or as an earlier
    brand. *)
Theorem redmibook_is_never_detected (text_lower : string) :
  detect_brand known_brands text_lower <> Some "redmibook"
  /\ detect_brand nlu_brands text_lower <> Some "redmibook".
Proof.
  assert (Hsub : contains "redmibook" text_lower = true ->
                 contains "redmi" text_lower = true)
    by (apply contains_trans; reflexivity).
  unfold detect_brand, known_brands, nlu_brands. cbn [List.find].
  destruct (contains "redmi" text_lower) eqn:Hr.
  - split; repeat case_match; discriminate.
  - destruct (contains "redmibook" text_lower) eqn:Hb;
      [specialize (Hsub eq_refl); discriminate|].
    split; repeat case_match; discriminate.
Qed.

Definition literal_chat_patterns : list string :=
  ["how do i track"; "can i return"; "do you have"; "when will"; "how long";
   "what is"; "tell me about"; "explain"; "help with"].

(** X26: [_should_use_gpt_directly] tests its chat patterns with the
    substring operator, so the four patterns written as regular
    expressions match only a message that spells a dot and an asterisk:
    on every other message the decision is the one taken without
    them. *)
Theorem regex_patterns_are_inert (user_message : string) :
  contains ".*" (lower user_message) = false ->
  _should_use_gpt_directly user_message
  = (1 <=? count_char newline user_message)%nat
    || any_in (comparison_words ++ ["which is better"]) (lower user_message)
    || any_in literal_chat_patterns (lower user_message)
    || any_in complex_indicators (lower user_message).
Proof.
  intros H. unfold _should_use_gpt_directly. do 2 f_equal.
  assert (Hre : forall p, contains ".*" p = true ->
                          contains p (lower user_message) = false).
  { intros p Hp. destruct (contains p (lower user_message)) eqn:Hc;
      [|reflexivity].
    rewrite (contains_trans _ _ _ Hp Hc) in H. discriminate H. }
  unfold any_in, general_chat_patterns, literal_chat_patterns.
  cbn [existsb].
  rewrite (Hre "is this.*available in"), (Hre "what.*warranty"),
    (Hre "how.*return"), (Hre "where.*track") by reflexivity.
  reflexivity.
Qed.

Lemma regex_patterns_are_inert_witness :
  contains ".*" (lower "Is this laptop available in blue") = false
  /\ _should_use_gpt_directly "Is this laptop available in blue" = false.
Proof.
  split; [vm_compute; reflexivity|].
  rewrite (regex_patterns_are_inert "Is this laptop available in blue").
  - vm_compute. reflexivity.
  - vm_compute. reflexivity.
Defined.
